(** * ShakeGuard: earthquake detection, warning fan-out and defense mode

    A shallow embedding of the algorithmic core of the application:

    - [Detector]: the hook [useEarthquakeDetection] (intensity calculator and
      the IDLE / IN_EVENT detector driven by sensor ticks);
    - [Geo]: the warning engine of [lib/supabase.ts] (haversine distance,
      arrival time, [calculateWarningsForUsers]);
    - [Defense]: the hook [useEmergencyDefense] (activation, deactivation and
      the false-alarm lock);
    - [Dispatch]: the wording and the sending of the warnings, also of
      [lib/supabase.ts] ([formatArrivalTime], [sendEarthquakeWarning],
      [processEarthquakeWarning]);
    - [WarningLog]: the hook [useEarthquakeWarning] (the warnings received);
    - [Sensors]: the hook [useSensorData] and the screen that feeds its
      samples to the detector.

    Modelling conventions.  A JavaScript [number] that carries a measurement
    is a real number: arithmetic is exact, so rounding, overflow and NaN are
    outside the model.  A timestamp ([Date.now()], [Date.getTime()]) is an
    integer count of milliseconds.  An asynchronous callback runs to its end
    before the next one starts (samples are handled in arrival order).  A
    [useRef] cell is a field of the state record; a [useState] cell is a
    field too, and a callback that closes over the value of a render
    receives that value as an explicit argument.  Calls to collaborators
    (location, database, brightness, alerts) appear as effects in the
    result, and what they answer is an input of the step. *)

From Stdlib Require Import String.
From Stdlib Require Import Reals Lra Lia ZArith Bool List.
From Stdlib Require Import Sorting.Sorted Sorting.Permutation.
From Stdlib Require DecimalString.
Import ListNotations.

Open Scope R_scope.

(** ** Numbers *)

(** [a < b] and [a <= b] on numbers, as the booleans the code branches on. *)
Definition Rltb (a b : R) : bool := if Rlt_dec a b then true else false.
Definition Rleb (a b : R) : bool := if Rle_dec a b then true else false.

(** [arr.reduce((sum, val) => sum + val, 0)] *)
Definition sum (l : list R) : R := fold_left Rplus l 0.

(** [f(x)] piped: [s |> f |> g] reads in the order of the assignments. *)
Notation "s |> f" := (f s) (at level 45, left associativity, only parsing).

(** ** The detector of [useEarthquakeDetection] *)

Module Detector.

Record SensorData := { x : R; y : R; z : R }.

Definition DETECTION_COOLDOWN : Z := 10000.
Definition BUFFER_SIZE : nat := 10.
Definition MIN_EVENT_DURATION : R := 2000.
Definition INTENSITY_BUFFER_SIZE : nat := 20.
Definition EMERGENCY_DEFENSE_THRESHOLD : R := 2.5.

Definition calculateMagnitude (data : SensorData) : R :=
  sqrt (x data * x data + y data * y data + z data * z data).

(** The record handed to [addEarthquakeEvent] and [saveEarthquakeToDatabase]. *)
Record EarthquakeEvent := {
  timestamp : Z;          (* new Date(eventStartTime.current) *)
  intensity : R;
  duration : R;           (* seconds *)
  peak_acceleration : R }.

Definition Location : Type := R * R.

(** Calls the detector makes to its collaborators. *)
Inductive Effect :=
| CaptureLocation                       (* getCurrentLocation(true) *)
| ActivateDefense                       (* activateEmergencyDefense() *)
| ScheduleDetectedReset                 (* setTimeout(..., 5000) *)
| AddEarthquakeEvent (e : EarthquakeEvent)
| SaveEarthquakeToDatabase (e : EarthquakeEvent) (loc : option Location).

(** The refs and state cells of the hook. *)
Record State := {
  detectionBuffer : list R;
  lastDetectionTime : Z;
  eventStartTime : Z;
  isInEvent : bool;
  peakAcceleration : R;
  eventIntensityBuffer : list R;
  eventLocationCaptured : bool;
  defenseActivationAttempted : bool;
  earthquakeDetected : bool;
  earthquakeIntensity : R;
  currentEventLocation : option Location;
  emergencyDefenseActivated : bool }.

Definition initial : State := {|
  detectionBuffer := []; lastDetectionTime := 0%Z; eventStartTime := 0%Z;
  isInEvent := false; peakAcceleration := 0; eventIntensityBuffer := [];
  eventLocationCaptured := false; defenseActivationAttempted := false;
  earthquakeDetected := false; earthquakeIntensity := 0;
  currentEventLocation := None; emergencyDefenseActivated := false |}.

(** One sampling tick: the arguments of [detectEarthquake], the clock, the
    setting read from [useSettings], and what the collaborators answer when
    they are called during the tick. *)
Record Tick := {
  now : Z;
  accelMagnitude : R;
  gyroMagnitude : R;
  sensitivity : R;
  (* the location [captureEarthquakeLocation] ends up with, if any *)
  capturedLocation : option Location;
  (* [None]: no [activateEmergencyDefense] prop; [Some b]: it resolves to [b] *)
  activateEmergencyDefense : option bool }.

(** Assignment to one cell: [set_f v s] is [s] with [f] replaced by [v]. *)
Definition set_detectionBuffer (v : list R) (s : State) : State := {|
  detectionBuffer := v;
  lastDetectionTime := lastDetectionTime s;
  eventStartTime := eventStartTime s;
  isInEvent := isInEvent s;
  peakAcceleration := peakAcceleration s;
  eventIntensityBuffer := eventIntensityBuffer s;
  eventLocationCaptured := eventLocationCaptured s;
  defenseActivationAttempted := defenseActivationAttempted s;
  earthquakeDetected := earthquakeDetected s;
  earthquakeIntensity := earthquakeIntensity s;
  currentEventLocation := currentEventLocation s;
  emergencyDefenseActivated := emergencyDefenseActivated s |}.

Definition set_lastDetectionTime (v : Z) (s : State) : State := {|
  detectionBuffer := detectionBuffer s;
  lastDetectionTime := v;
  eventStartTime := eventStartTime s;
  isInEvent := isInEvent s;
  peakAcceleration := peakAcceleration s;
  eventIntensityBuffer := eventIntensityBuffer s;
  eventLocationCaptured := eventLocationCaptured s;
  defenseActivationAttempted := defenseActivationAttempted s;
  earthquakeDetected := earthquakeDetected s;
  earthquakeIntensity := earthquakeIntensity s;
  currentEventLocation := currentEventLocation s;
  emergencyDefenseActivated := emergencyDefenseActivated s |}.

Definition set_eventStartTime (v : Z) (s : State) : State := {|
  detectionBuffer := detectionBuffer s;
  lastDetectionTime := lastDetectionTime s;
  eventStartTime := v;
  isInEvent := isInEvent s;
  peakAcceleration := peakAcceleration s;
  eventIntensityBuffer := eventIntensityBuffer s;
  eventLocationCaptured := eventLocationCaptured s;
  defenseActivationAttempted := defenseActivationAttempted s;
  earthquakeDetected := earthquakeDetected s;
  earthquakeIntensity := earthquakeIntensity s;
  currentEventLocation := currentEventLocation s;
  emergencyDefenseActivated := emergencyDefenseActivated s |}.

Definition set_isInEvent (v : bool) (s : State) : State := {|
  detectionBuffer := detectionBuffer s;
  lastDetectionTime := lastDetectionTime s;
  eventStartTime := eventStartTime s;
  isInEvent := v;
  peakAcceleration := peakAcceleration s;
  eventIntensityBuffer := eventIntensityBuffer s;
  eventLocationCaptured := eventLocationCaptured s;
  defenseActivationAttempted := defenseActivationAttempted s;
  earthquakeDetected := earthquakeDetected s;
  earthquakeIntensity := earthquakeIntensity s;
  currentEventLocation := currentEventLocation s;
  emergencyDefenseActivated := emergencyDefenseActivated s |}.

Definition set_peakAcceleration (v : R) (s : State) : State := {|
  detectionBuffer := detectionBuffer s;
  lastDetectionTime := lastDetectionTime s;
  eventStartTime := eventStartTime s;
  isInEvent := isInEvent s;
  peakAcceleration := v;
  eventIntensityBuffer := eventIntensityBuffer s;
  eventLocationCaptured := eventLocationCaptured s;
  defenseActivationAttempted := defenseActivationAttempted s;
  earthquakeDetected := earthquakeDetected s;
  earthquakeIntensity := earthquakeIntensity s;
  currentEventLocation := currentEventLocation s;
  emergencyDefenseActivated := emergencyDefenseActivated s |}.

Definition set_eventIntensityBuffer (v : list R) (s : State) : State := {|
  detectionBuffer := detectionBuffer s;
  lastDetectionTime := lastDetectionTime s;
  eventStartTime := eventStartTime s;
  isInEvent := isInEvent s;
  peakAcceleration := peakAcceleration s;
  eventIntensityBuffer := v;
  eventLocationCaptured := eventLocationCaptured s;
  defenseActivationAttempted := defenseActivationAttempted s;
  earthquakeDetected := earthquakeDetected s;
  earthquakeIntensity := earthquakeIntensity s;
  currentEventLocation := currentEventLocation s;
  emergencyDefenseActivated := emergencyDefenseActivated s |}.

Definition set_eventLocationCaptured (v : bool) (s : State) : State := {|
  detectionBuffer := detectionBuffer s;
  lastDetectionTime := lastDetectionTime s;
  eventStartTime := eventStartTime s;
  isInEvent := isInEvent s;
  peakAcceleration := peakAcceleration s;
  eventIntensityBuffer := eventIntensityBuffer s;
  eventLocationCaptured := v;
  defenseActivationAttempted := defenseActivationAttempted s;
  earthquakeDetected := earthquakeDetected s;
  earthquakeIntensity := earthquakeIntensity s;
  currentEventLocation := currentEventLocation s;
  emergencyDefenseActivated := emergencyDefenseActivated s |}.

Definition set_defenseActivationAttempted (v : bool) (s : State) : State := {|
  detectionBuffer := detectionBuffer s;
  lastDetectionTime := lastDetectionTime s;
  eventStartTime := eventStartTime s;
  isInEvent := isInEvent s;
  peakAcceleration := peakAcceleration s;
  eventIntensityBuffer := eventIntensityBuffer s;
  eventLocationCaptured := eventLocationCaptured s;
  defenseActivationAttempted := v;
  earthquakeDetected := earthquakeDetected s;
  earthquakeIntensity := earthquakeIntensity s;
  currentEventLocation := currentEventLocation s;
  emergencyDefenseActivated := emergencyDefenseActivated s |}.

Definition set_earthquakeDetected (v : bool) (s : State) : State := {|
  detectionBuffer := detectionBuffer s;
  lastDetectionTime := lastDetectionTime s;
  eventStartTime := eventStartTime s;
  isInEvent := isInEvent s;
  peakAcceleration := peakAcceleration s;
  eventIntensityBuffer := eventIntensityBuffer s;
  eventLocationCaptured := eventLocationCaptured s;
  defenseActivationAttempted := defenseActivationAttempted s;
  earthquakeDetected := v;
  earthquakeIntensity := earthquakeIntensity s;
  currentEventLocation := currentEventLocation s;
  emergencyDefenseActivated := emergencyDefenseActivated s |}.

Definition set_earthquakeIntensity (v : R) (s : State) : State := {|
  detectionBuffer := detectionBuffer s;
  lastDetectionTime := lastDetectionTime s;
  eventStartTime := eventStartTime s;
  isInEvent := isInEvent s;
  peakAcceleration := peakAcceleration s;
  eventIntensityBuffer := eventIntensityBuffer s;
  eventLocationCaptured := eventLocationCaptured s;
  defenseActivationAttempted := defenseActivationAttempted s;
  earthquakeDetected := earthquakeDetected s;
  earthquakeIntensity := v;
  currentEventLocation := currentEventLocation s;
  emergencyDefenseActivated := emergencyDefenseActivated s |}.

Definition set_currentEventLocation (v : option Location)
  (s : State) : State := {|
  detectionBuffer := detectionBuffer s;
  lastDetectionTime := lastDetectionTime s;
  eventStartTime := eventStartTime s;
  isInEvent := isInEvent s;
  peakAcceleration := peakAcceleration s;
  eventIntensityBuffer := eventIntensityBuffer s;
  eventLocationCaptured := eventLocationCaptured s;
  defenseActivationAttempted := defenseActivationAttempted s;
  earthquakeDetected := earthquakeDetected s;
  earthquakeIntensity := earthquakeIntensity s;
  currentEventLocation := v;
  emergencyDefenseActivated := emergencyDefenseActivated s |}.

Definition set_emergencyDefenseActivated (v : bool) (s : State) : State := {|
  detectionBuffer := detectionBuffer s;
  lastDetectionTime := lastDetectionTime s;
  eventStartTime := eventStartTime s;
  isInEvent := isInEvent s;
  peakAcceleration := peakAcceleration s;
  eventIntensityBuffer := eventIntensityBuffer s;
  eventLocationCaptured := eventLocationCaptured s;
  defenseActivationAttempted := defenseActivationAttempted s;
  earthquakeDetected := earthquakeDetected s;
  earthquakeIntensity := earthquakeIntensity s;
  currentEventLocation := currentEventLocation s;
  emergencyDefenseActivated := v |}.

(** [buf.push(v); if (buf.length > cap) buf.shift()] *)
Definition push_capped (cap : nat) (buf : list R) (v : R) : list R :=
  let b := buf ++ [v] in
  if (cap <? length b)%nat then tl b else b.

(** [accelDeviation + gyroIntensity] of [detectEarthquake]. *)
Definition combinedIntensity (accelMagnitude gyroMagnitude : R) : R :=
  let accelDeviation := Rabs (accelMagnitude - 9.81) in
  let gyroIntensity := gyroMagnitude * 15 in
  accelDeviation + gyroIntensity.

(** [baseThreshold * sensitivity] *)
Definition threshold (sensitivity : R) : R :=
  let baseThreshold := 1.2 in
  baseThreshold * sensitivity.

(** [captureEarthquakeLocation]: one call to the location provider; the
    captured flag and the state cell are set when a location came back
    (the fresh one or the last known one). *)
Definition captureEarthquakeLocation (t : Tick) (s : State)
  : State * list Effect :=
  match capturedLocation t with
  | Some loc =>
      (s |> set_currentEventLocation (Some loc)
         |> set_eventLocationCaptured true, [CaptureLocation])
  | None => (s, [CaptureLocation])
  end.

Definition activateEmergencyDefenseIfNeeded (t : Tick) (intensity : R)
  (s : State) : State * list Effect :=
  match activateEmergencyDefense t with
  | Some success =>
      if negb (defenseActivationAttempted s)
         && Rltb EMERGENCY_DEFENSE_THRESHOLD intensity
      then
        let s := s |> set_defenseActivationAttempted true in
        ((if success then s |> set_emergencyDefenseActivated true else s),
         [ActivateDefense])
      else (s, [])
  | None => (s, [])
  end.

(** [shouldDetect], read on the state as it is once the current sample has
    been pushed on the detection buffer. *)
Definition shouldDetect (s : State) (t : Tick) : bool :=
  let combinedIntensity :=
    combinedIntensity (accelMagnitude t) (gyroMagnitude t) in
  let threshold := threshold (sensitivity t) in
  let isAboveThreshold := Rltb threshold combinedIntensity in
  let averageIntensity :=
    sum (detectionBuffer s) / INR (List.length (detectionBuffer s)) in
  isAboveThreshold
  && Rltb (threshold * 0.8) averageIntensity
  && (DETECTION_COOLDOWN <? now t - lastDetectionTime s)%Z.

Definition detectEarthquake (s : State) (t : Tick) : State * list Effect :=
  let combinedIntensity :=
    combinedIntensity (accelMagnitude t) (gyroMagnitude t) in
  let s := s |> set_earthquakeIntensity combinedIntensity in
  (* add to the detection buffer *)
  let s := s |> set_detectionBuffer
                  (push_capped BUFFER_SIZE (detectionBuffer s)
                     combinedIntensity) in
  (* add to the event intensity buffer during an active event *)
  let s :=
    if isInEvent s
    then s |> set_eventIntensityBuffer
                (push_capped INTENSITY_BUFFER_SIZE (eventIntensityBuffer s)
                   combinedIntensity)
    else s in
  let isAboveThreshold := Rltb (threshold (sensitivity t)) combinedIntensity in
  let shouldDetect := shouldDetect s t in
  let '(s, effs) :=
    if shouldDetect && negb (isInEvent s) then
      (* start of an earthquake event *)
      let s := s |> set_isInEvent true
                 |> set_eventStartTime (now t)
                 |> set_peakAcceleration (accelMagnitude t)
                 |> set_eventIntensityBuffer [combinedIntensity]
                 |> set_eventLocationCaptured false
                 |> set_defenseActivationAttempted false
                 |> set_emergencyDefenseActivated false in
      let '(s, e1) := captureEarthquakeLocation t s in
      let '(s, e2) := activateEmergencyDefenseIfNeeded t combinedIntensity s in
      let s := s |> set_earthquakeDetected true
                 |> set_lastDetectionTime (now t) in
      (s, e1 ++ e2 ++ [ScheduleDetectedReset])
    else if isInEvent s then
      (* [saveEarthquakeToDatabase] reads the location of this render *)
      let closure_location := currentEventLocation s in
      let '(s, e1) := activateEmergencyDefenseIfNeeded t combinedIntensity s in
      if negb isAboveThreshold then
        (* end of the earthquake event *)
        let eventDuration := IZR (now t - eventStartTime s) / 1000 in
        let e2 :=
          if Rleb (MIN_EVENT_DURATION / 1000) eventDuration then
            let avgEventIntensity :=
              if (0 <? List.length (eventIntensityBuffer s))%nat
              then sum (eventIntensityBuffer s)
                   / INR (List.length (eventIntensityBuffer s))
              else combinedIntensity in
            let eventData := {|
              timestamp := eventStartTime s;
              intensity := avgEventIntensity;
              duration := eventDuration;
              peak_acceleration := peakAcceleration s |} in
            [AddEarthquakeEvent eventData;
             SaveEarthquakeToDatabase eventData closure_location]
          else [] in
        (* reset the event state *)
        let s := s |> set_isInEvent false
                   |> set_peakAcceleration 0
                   |> set_eventIntensityBuffer []
                   |> set_defenseActivationAttempted false
                   |> set_currentEventLocation None
                   |> set_emergencyDefenseActivated false
                   |> set_eventLocationCaptured false in
        (s, e1 ++ e2)
      else (s, e1)
    else (s, []) in
  (* update the peak acceleration during an event *)
  let s :=
    if isInEvent s && Rltb (peakAcceleration s) (accelMagnitude t)
    then s |> set_peakAcceleration (accelMagnitude t)
    else s in
  (s, effs).

(** The timer started with an event runs out, five seconds later. *)
Definition detectedResetFires (s : State) : State :=
  s |> set_earthquakeDetected false.

(** The effect hook: magnitudes of the two samples, then one detector tick. *)
Definition onSensorData (s : State) (accel gyro : SensorData) (nw : Z)
  (sens : R) (loc : option Location) (act : option bool)
  : State * list Effect :=
  detectEarthquake s {|
    now := nw;
    accelMagnitude := calculateMagnitude accel;
    gyroMagnitude := calculateMagnitude gyro;
    sensitivity := sens; capturedLocation := loc;
    activateEmergencyDefense := act |}.

(** [addEarthquakeEvent] of [useEarthquakeHistory]: the new event goes in
    front and the first 100 entries are kept. *)
Definition addEarthquakeEvent (event : EarthquakeEvent)
  (prev : list EarthquakeEvent) : list EarthquakeEvent :=
  firstn 100 (event :: prev).

(** The history store after the calls among [effs] were served. *)
Fixpoint storeHistory (effs : list Effect) (history : list EarthquakeEvent)
  : list EarthquakeEvent :=
  match effs with
  | [] => history
  | AddEarthquakeEvent event :: effs' =>
      storeHistory effs' (addEarthquakeEvent event history)
  | _ :: effs' => storeHistory effs' history
  end.

(** A run of the detector over successive ticks, effects in order. *)
Fixpoint run (s : State) (ts : list Tick) : State * list Effect :=
  match ts with
  | [] => (s, [])
  | t :: ts' =>
      let '(s1, e1) := detectEarthquake s t in
      let '(s2, e2) := run s1 ts' in
      (s2, e1 ++ e2)
  end.

(** *** Vocabulary of the statements *)

(** The combined intensity of a tick and its comparison with the threshold. *)
Definition ci (t : Tick) : R :=
  combinedIntensity (accelMagnitude t) (gyroMagnitude t).

Definition aboveThreshold (t : Tick) : bool :=
  Rltb (threshold (sensitivity t)) (ci t).

(** The value [shouldDetect] takes during tick [t] when the tick begins in
    state [s]. *)
Definition detects (s : State) (t : Tick) : bool :=
  shouldDetect
    (s |> set_detectionBuffer
            (push_capped BUFFER_SIZE (detectionBuffer s) (ci t))) t.

(** The finalized records among the effects of a run, and the number of
    calls to [activateEmergencyDefense]. *)
Definition is_record (e : Effect) : bool :=
  match e with
  | AddEarthquakeEvent _ | SaveEarthquakeToDatabase _ _ => true
  | _ => false
  end.

Definition records (effs : list Effect) : list Effect := filter is_record effs.

Definition is_activation (e : Effect) : bool :=
  match e with ActivateDefense => true | _ => false end.

Definition activations (effs : list Effect) : nat :=
  List.length (filter is_activation effs).

(** Whether [activateEmergencyDefenseIfNeeded] calls the callback. *)
Definition activates (s : State) (t : Tick) : bool :=
  match activateEmergencyDefense t with
  | Some _ =>
      negb (defenseActivationAttempted s)
      && Rltb EMERGENCY_DEFENSE_THRESHOLD (ci t)
  | None => false
  end.

(** The event-scoped cells as the "Reset event state" block leaves them. *)
Definition event_reset (s : State) : Prop :=
  isInEvent s = false /\ peakAcceleration s = 0
  /\ eventIntensityBuffer s = [] /\ defenseActivationAttempted s = false
  /\ currentEventLocation s = None /\ emergencyDefenseActivated s = false
  /\ eventLocationCaptured s = false.

(** The record built when an event that began in state [s] ends at [t]. *)
Definition finalized (s : State) (t : Tick) : EarthquakeEvent :=
  let buf :=
    push_capped INTENSITY_BUFFER_SIZE (eventIntensityBuffer s) (ci t) in
  {| timestamp := eventStartTime s;
     intensity := sum buf / INR (List.length buf);
     duration := IZR (now t - eventStartTime s) / 1000;
     peak_acceleration := peakAcceleration s |}.

(** Calls to the defense callback still allowed in the current event. *)
Definition budget (s : State) : nat :=
  if defenseActivationAttempted s then 0%nat else 1%nat.

(** The last [n] elements of a list. *)
Definition lastn {A : Type} (n : nat) (l : list A) : list A :=
  skipn (List.length l - n) l.

(** [removeEvent] of [useEarthquakeHistory]:
    [prev.filter((_, i) => i !== index)], positions counted from [i]. *)
Fixpoint filter_index (i index : Z) (prev : list EarthquakeEvent)
  : list EarthquakeEvent :=
  match prev with
  | [] => []
  | event :: prev' =>
      if (i =? index)%Z then filter_index (i + 1) index prev'
      else event :: filter_index (i + 1) index prev'
  end.

Definition removeEvent (index : Z) (prev : list EarthquakeEvent)
  : list EarthquakeEvent :=
  filter_index 0 index prev.



(** The mean of a list of numbers. *)
Definition mean (l : list R) : R := sum l / INR (List.length l).

End Detector.

(** ** The warning engine of [lib/supabase.ts] *)

Module Geo.

Definition P_WAVE : R := 6.0.
Definition S_WAVE : R := 3.5.
Definition SURFACE : R := 3.0.
Definition DEFAULT_WAVE_SPEED : R := S_WAVE.

Record UserLocation := {
  user_id : string;
  latitude : R;
  longitude : R;
  timestamp : string }.

Record WarningCalculation := {
  warned_user_id : string;
  distance_km : R;
  arrival_time_seconds : R;
  is_urgent : bool;
  user_location : R * R }.

Definition toRadians (degrees : R) : R := degrees * (PI / 180).

(** [Math.atan2(y, x)] on real arguments. *)
Definition atan2 (y x : R) : R :=
  if Rltb 0 x then atan (y / x)
  else if Rltb x 0 then
    if Rleb 0 y then atan (y / x) + PI else atan (y / x) - PI
  else if Rltb 0 y then PI / 2
  else if Rltb y 0 then - (PI / 2)
  else 0.

Definition calculateHaversineDistance (lat1 lon1 lat2 lon2 : R) : R :=
  let R_earth := 6371 in
  let dLat := toRadians (lat2 - lat1) in
  let dLon := toRadians (lon2 - lon1) in
  let a :=
    sin (dLat / 2) * sin (dLat / 2) +
    cos (toRadians lat1) * cos (toRadians lat2) *
    sin (dLon / 2) * sin (dLon / 2) in
  let c := 2 * atan2 (sqrt a) (sqrt (1 - a)) in
  let distance := R_earth * c in
  distance.

(** The second parameter is optional and defaults to [DEFAULT_WAVE_SPEED]. *)
Definition calculateArrivalTime (distance_km : R) (wave_speed : option R) : R :=
  let wave_speed :=
    match wave_speed with Some v => v | None => DEFAULT_WAVE_SPEED end in
  distance_km / wave_speed.

(** What the query on [user_locations] answers: an error, or the rows of the
    last 24 hours, newest first. *)
Inductive QueryResult :=
| QueryError
| QueryData (rows : list UserLocation).

(** The [Map] filled by [forEach], first row of each user kept, read back in
    insertion order. *)
Fixpoint mostRecentPerUser (seen : list string) (rows : list UserLocation)
  : list UserLocation :=
  match rows with
  | [] => []
  | r :: rows' =>
      if existsb (String.eqb (user_id r)) seen
      then mostRecentPerUser seen rows'
      else r :: mostRecentPerUser (user_id r :: seen) rows'
  end.

Definition getRecentUserLocations (q : QueryResult) : list UserLocation :=
  match q with
  | QueryError => []
  | QueryData data => mostRecentPerUser [] data
  end.

(** [const isUrgent = arrivalTime < 10] *)
Definition isUrgent (arrivalTime : R) : bool := Rltb arrivalTime 10.

(** The body of the [forEach] callback: the warning pushed for one user, or
    nothing when the callback returns early. *)
Definition warningFor (epicenterLat epicenterLon : R)
  (userLocation : UserLocation) : option WarningCalculation :=
  let distance :=
    calculateHaversineDistance epicenterLat epicenterLon
      (latitude userLocation) (longitude userLocation) in
  if Rltb distance 1 then None
  else
    let arrivalTime := calculateArrivalTime distance None in
    Some {|
      warned_user_id := user_id userLocation;
      distance_km := distance;
      arrival_time_seconds := arrivalTime;
      is_urgent := isUrgent arrivalTime;
      user_location := (latitude userLocation, longitude userLocation) |}.

(** [Array.prototype.sort(compareFn)]: a stable sort; [x] goes before the
    first element [y] of the sorted prefix with [compareFn(x, y) < 0]. *)
Section Sort.
Context {A : Type} (compareFn : A -> A -> R).

Fixpoint insert (x : A) (l : list A) : list A :=
  match l with
  | [] => [x]
  | y :: l' =>
      if Rltb (compareFn x y) 0 then x :: y :: l' else y :: insert x l'
  end.

Definition sort (l : list A) : list A :=
  fold_left (fun sorted x => insert x sorted) l [].

End Sort.

Definition calculateWarningsForUsers (epicenterLat epicenterLon magnitude : R)
  (q : QueryResult) : list WarningCalculation :=
  let userLocations := getRecentUserLocations q in
  let warnings :=
    fold_left
      (fun warnings userLocation =>
         match warningFor epicenterLat epicenterLon userLocation with
         | Some w => warnings ++ [w]
         | None => warnings
         end)
      userLocations [] in
  sort (fun a b => arrival_time_seconds a - arrival_time_seconds b) warnings.

(** *** Vocabulary of the statements *)

(** What the [forEach] callback pushes for one user. *)
Definition pushed (epicenterLat epicenterLon : R) (u : UserLocation)
  : list WarningCalculation :=
  match warningFor epicenterLat epicenterLon u with
  | Some w => [w]
  | None => []
  end.

(** The haversine term [a] of two points. *)
Definition hav (lat1 lon1 lat2 lon2 : R) : R :=
  sin (toRadians (lat2 - lat1) / 2) * sin (toRadians (lat2 - lat1) / 2) +
  cos (toRadians lat1) * cos (toRadians lat2) *
  sin (toRadians (lon2 - lon1) / 2) * sin (toRadians (lon2 - lon1) / 2).

End Geo.

(** ** The defense mode controller of [useEmergencyDefense] *)

Module Defense.

Inductive Platform := Web | Native.

Record EmergencyDefenseState := {
  isActive : bool;
  originalBrightness : option R;
  batterySavingEnabled : bool;
  locationSent : bool;
  falseAlarmDisabled : bool;
  falseAlarmDisabledUntil : option Z;
  brightnessRestored : bool;
  isInitialized : bool }.

(** The dialogs of [Alert.alert], with the values they display. *)
Inductive Alert :=
| DefenseDisabledAlert (timeRemaining : Z)
| DefenseActivatedAlert (brightness battery location : bool)
| DefenseDeactivatedAlert
| FalseAlarmProtectionAlert.

(** The hook instance and the device around it.  [falseAlarmCheckInterval] is
    the ref holding the running interval, if any; the interval's callback is
    the [checkFalseAlarmStatus] of the render that registered it, so it is
    recorded by the value of [defenseState.falseAlarmDisabledUntil] that this
    callback closed over. *)
Record World := {
  defenseState : EmergencyDefenseState;
  initializationAttempted : bool;
  falseAlarmCheckInterval : option (option Z);
  brightness : R;                   (* expo-brightness *)
  cssFilter : option R;             (* document.body.style.filter *)
  cssAnimationsPaused : bool;
  sentLocations : list (R * R);     (* rows inserted with emergency: true *)
  alerts : list Alert }.

(** What the platform answers during one call. *)
Record Env := {
  platform : Platform;
  now : Z;                          (* new Date().getTime() *)
  brightness_read_ok : bool;        (* getBrightnessAsync resolves *)
  brightness_write_ok : bool;       (* setBrightnessAsync resolves *)
  dom_ok : bool;                    (* document.body.style can be written *)
  location : option (R * R);        (* getCurrentLocation(true) *)
  insert_ok : bool }.               (* the insert reports no error *)

Definition set_isActive (v : bool)
  (s : EmergencyDefenseState) : EmergencyDefenseState := {|
  isActive := v;
  originalBrightness := originalBrightness s;
  batterySavingEnabled := batterySavingEnabled s;
  locationSent := locationSent s;
  falseAlarmDisabled := falseAlarmDisabled s;
  falseAlarmDisabledUntil := falseAlarmDisabledUntil s;
  brightnessRestored := brightnessRestored s;
  isInitialized := isInitialized s |}.

Definition set_originalBrightness (v : option R)
  (s : EmergencyDefenseState) : EmergencyDefenseState := {|
  isActive := isActive s;
  originalBrightness := v;
  batterySavingEnabled := batterySavingEnabled s;
  locationSent := locationSent s;
  falseAlarmDisabled := falseAlarmDisabled s;
  falseAlarmDisabledUntil := falseAlarmDisabledUntil s;
  brightnessRestored := brightnessRestored s;
  isInitialized := isInitialized s |}.

Definition set_batterySavingEnabled (v : bool)
  (s : EmergencyDefenseState) : EmergencyDefenseState := {|
  isActive := isActive s;
  originalBrightness := originalBrightness s;
  batterySavingEnabled := v;
  locationSent := locationSent s;
  falseAlarmDisabled := falseAlarmDisabled s;
  falseAlarmDisabledUntil := falseAlarmDisabledUntil s;
  brightnessRestored := brightnessRestored s;
  isInitialized := isInitialized s |}.

Definition set_locationSent (v : bool)
  (s : EmergencyDefenseState) : EmergencyDefenseState := {|
  isActive := isActive s;
  originalBrightness := originalBrightness s;
  batterySavingEnabled := batterySavingEnabled s;
  locationSent := v;
  falseAlarmDisabled := falseAlarmDisabled s;
  falseAlarmDisabledUntil := falseAlarmDisabledUntil s;
  brightnessRestored := brightnessRestored s;
  isInitialized := isInitialized s |}.

Definition set_falseAlarmDisabled (v : bool)
  (s : EmergencyDefenseState) : EmergencyDefenseState := {|
  isActive := isActive s;
  originalBrightness := originalBrightness s;
  batterySavingEnabled := batterySavingEnabled s;
  locationSent := locationSent s;
  falseAlarmDisabled := v;
  falseAlarmDisabledUntil := falseAlarmDisabledUntil s;
  brightnessRestored := brightnessRestored s;
  isInitialized := isInitialized s |}.

Definition set_falseAlarmDisabledUntil (v : option Z)
  (s : EmergencyDefenseState) : EmergencyDefenseState := {|
  isActive := isActive s;
  originalBrightness := originalBrightness s;
  batterySavingEnabled := batterySavingEnabled s;
  locationSent := locationSent s;
  falseAlarmDisabled := falseAlarmDisabled s;
  falseAlarmDisabledUntil := v;
  brightnessRestored := brightnessRestored s;
  isInitialized := isInitialized s |}.

Definition set_brightnessRestored (v : bool)
  (s : EmergencyDefenseState) : EmergencyDefenseState := {|
  isActive := isActive s;
  originalBrightness := originalBrightness s;
  batterySavingEnabled := batterySavingEnabled s;
  locationSent := locationSent s;
  falseAlarmDisabled := falseAlarmDisabled s;
  falseAlarmDisabledUntil := falseAlarmDisabledUntil s;
  brightnessRestored := v;
  isInitialized := isInitialized s |}.

Definition set_isInitialized (v : bool)
  (s : EmergencyDefenseState) : EmergencyDefenseState := {|
  isActive := isActive s;
  originalBrightness := originalBrightness s;
  batterySavingEnabled := batterySavingEnabled s;
  locationSent := locationSent s;
  falseAlarmDisabled := falseAlarmDisabled s;
  falseAlarmDisabledUntil := falseAlarmDisabledUntil s;
  brightnessRestored := brightnessRestored s;
  isInitialized := v |}.

Definition world_defenseState (v : EmergencyDefenseState)
  (s : World) : World := {|
  defenseState := v;
  initializationAttempted := initializationAttempted s;
  falseAlarmCheckInterval := falseAlarmCheckInterval s;
  brightness := brightness s;
  cssFilter := cssFilter s;
  cssAnimationsPaused := cssAnimationsPaused s;
  sentLocations := sentLocations s;
  alerts := alerts s |}.

Definition world_initializationAttempted (v : bool) (s : World) : World := {|
  defenseState := defenseState s;
  initializationAttempted := v;
  falseAlarmCheckInterval := falseAlarmCheckInterval s;
  brightness := brightness s;
  cssFilter := cssFilter s;
  cssAnimationsPaused := cssAnimationsPaused s;
  sentLocations := sentLocations s;
  alerts := alerts s |}.

Definition world_falseAlarmCheckInterval (v : option (option Z))
  (s : World) : World := {|
  defenseState := defenseState s;
  initializationAttempted := initializationAttempted s;
  falseAlarmCheckInterval := v;
  brightness := brightness s;
  cssFilter := cssFilter s;
  cssAnimationsPaused := cssAnimationsPaused s;
  sentLocations := sentLocations s;
  alerts := alerts s |}.

Definition world_brightness (v : R) (s : World) : World := {|
  defenseState := defenseState s;
  initializationAttempted := initializationAttempted s;
  falseAlarmCheckInterval := falseAlarmCheckInterval s;
  brightness := v;
  cssFilter := cssFilter s;
  cssAnimationsPaused := cssAnimationsPaused s;
  sentLocations := sentLocations s;
  alerts := alerts s |}.

Definition world_cssFilter (v : option R) (s : World) : World := {|
  defenseState := defenseState s;
  initializationAttempted := initializationAttempted s;
  falseAlarmCheckInterval := falseAlarmCheckInterval s;
  brightness := brightness s;
  cssFilter := v;
  cssAnimationsPaused := cssAnimationsPaused s;
  sentLocations := sentLocations s;
  alerts := alerts s |}.

Definition world_cssAnimationsPaused (v : bool) (s : World) : World := {|
  defenseState := defenseState s;
  initializationAttempted := initializationAttempted s;
  falseAlarmCheckInterval := falseAlarmCheckInterval s;
  brightness := brightness s;
  cssFilter := cssFilter s;
  cssAnimationsPaused := v;
  sentLocations := sentLocations s;
  alerts := alerts s |}.

Definition world_sentLocations (v : list (R * R)) (s : World) : World := {|
  defenseState := defenseState s;
  initializationAttempted := initializationAttempted s;
  falseAlarmCheckInterval := falseAlarmCheckInterval s;
  brightness := brightness s;
  cssFilter := cssFilter s;
  cssAnimationsPaused := cssAnimationsPaused s;
  sentLocations := v;
  alerts := alerts s |}.

Definition world_alerts (v : list Alert) (s : World) : World := {|
  defenseState := defenseState s;
  initializationAttempted := initializationAttempted s;
  falseAlarmCheckInterval := falseAlarmCheckInterval s;
  brightness := brightness s;
  cssFilter := cssFilter s;
  cssAnimationsPaused := cssAnimationsPaused s;
  sentLocations := sentLocations s;
  alerts := v |}.

Definition initial : World := {|
  defenseState := {|
    isActive := false; originalBrightness := None;
    batterySavingEnabled := false; locationSent := false;
    falseAlarmDisabled := false; falseAlarmDisabledUntil := None;
    brightnessRestored := false; isInitialized := false |};
  initializationAttempted := false;
  falseAlarmCheckInterval := None;
  brightness := 0.8; cssFilter := None; cssAnimationsPaused := false;
  sentLocations := []; alerts := [] |}.

(** [setDefenseState(prev => f(prev))]: applied to the state of the moment. *)
Definition setDefenseState (f : EmergencyDefenseState -> EmergencyDefenseState)
  (w : World) : World :=
  world_defenseState (f (defenseState w)) w.

Definition alert (a : Alert) (w : World) : World :=
  world_alerts (alerts w ++ [a]) w.

(** [Math.ceil(ms / (1000 * 60))] *)
Definition ceil_minutes (ms : Z) : Z := (- ((- ms) / (1000 * 60)))%Z.

(** [x || 0.8] on an optional number: [null] and [0] both give the default. *)
Definition or_default (x : option R) (d : R) : R :=
  match x with
  | Some b => if Req_dec_T b 0 then d else b
  | None => d
  end.

(** Every callback below takes [snap], the [defenseState] of the render whose
    closure is being run. *)

Definition initializeBrightnessState (snap : EmergencyDefenseState) (env : Env)
  (w : World) : World :=
  if initializationAttempted w || isInitialized snap then w
  else
    let w := w |> world_initializationAttempted true in
    let w :=
      match platform env with
      | Native =>
          if brightness_read_ok env
             && Rltb (brightness w) 0.3
             && brightness_write_ok env
          then w |> world_brightness 0.8
          else w
      | Web =>
          if dom_ok env
          then w |> world_cssFilter None |> world_cssAnimationsPaused false
          else w
      end in
    w |> setDefenseState (set_isInitialized true).

Definition checkFalseAlarmStatus (closed_until : option Z) (env : Env)
  (w : World) : World :=
  match closed_until with
  | Some falseAlarmDisabledUntil =>
      if (falseAlarmDisabledUntil <=? now env)%Z then
        w |> setDefenseState
               (fun prev => prev |> set_falseAlarmDisabled false
                                 |> set_falseAlarmDisabledUntil None)
          |> world_falseAlarmCheckInterval None
      else w
  | None => w
  end.

(** The interval registered in [falseAlarmCheckInterval] fires. *)
Definition intervalFires (env : Env) (w : World) : World :=
  match falseAlarmCheckInterval w with
  | Some closed_until => checkFalseAlarmStatus closed_until env w
  | None => w
  end.

Definition activateEmergencyDefense (snap : EmergencyDefenseState) (env : Env)
  (w : World) : bool * World :=
  let w :=
    if negb (isInitialized snap)
    then initializeBrightnessState snap env w else w in
  if falseAlarmDisabled snap then
    let timeRemaining :=
      match falseAlarmDisabledUntil snap with
      | Some until => ceil_minutes (until - now env)
      | None => 0%Z
      end in
    (false, w |> alert (DefenseDisabledAlert timeRemaining))
  else
    (* 1. reduce the screen brightness *)
    let '(brightnessSuccess, original, w) :=
      match platform env with
      | Native =>
          if brightness_read_ok env then
            let currentBrightness := brightness w in
            if Rltb 0.2 currentBrightness then
              if brightness_write_ok env
              then (true, Some currentBrightness, w |> world_brightness 0.1)
              else (false, Some currentBrightness, w)
            else (true, Some currentBrightness, w)
          else (false, None, w)
      | Web =>
          if dom_ok env then (true, None, w |> world_cssFilter (Some 0.3))
          else (false, None, w)
      end in
    (* 2. battery saving *)
    let '(batterySavingSuccess, w) :=
      match platform env with
      | Native => (true, w)
      | Web =>
          if dom_ok env then (true, w |> world_cssAnimationsPaused true)
          else (false, w)
      end in
    (* 3. send the current location *)
    let '(locationSuccess, w) :=
      match location env with
      | Some loc =>
          if insert_ok env
          then (true, w |> world_sentLocations (sentLocations w ++ [loc]))
          else (false, w)
      | None => (false, w)
      end in
    let w :=
      w |> setDefenseState
             (fun prev => prev |> set_isActive true
                               |> set_originalBrightness original
                               |> set_batterySavingEnabled batterySavingSuccess
                               |> set_locationSent locationSuccess
                               |> set_brightnessRestored false) in
    let successCount :=
      List.length
        (filter (fun b : bool => b)
           [brightnessSuccess; batterySavingSuccess; locationSuccess]) in
    let w :=
      w |> alert (DefenseActivatedAlert brightnessSuccess batterySavingSuccess
                    locationSuccess) in
    ((0 <? successCount)%nat, w).

Definition deactivateEmergencyDefense (snap : EmergencyDefenseState) (env : Env)
  (w : World) : bool * World :=
  let w :=
    match platform env with
    | Native =>
        let targetBrightness := or_default (originalBrightness snap) 0.8 in
        if brightness_write_ok env
        then w |> world_brightness targetBrightness
        else w
    | Web =>
        if dom_ok env
        then w |> world_cssFilter None |> world_cssAnimationsPaused false
        else w
    end in
  let w :=
    w |> setDefenseState
           (fun prev => prev |> set_isActive false
                             |> set_originalBrightness None
                             |> set_batterySavingEnabled false
                             |> set_locationSent false
                             |> set_brightnessRestored false) in
  (true, w |> alert DefenseDeactivatedAlert).

Definition disableForFalseAlarm (snap : EmergencyDefenseState) (env : Env)
  (w : World) : bool * World :=
  (* new Date(), then setMinutes(getMinutes() + 30) *)
  let disabledUntil := (now env + 30 * 60 * 1000)%Z in
  let w :=
    if isActive snap
    then snd (deactivateEmergencyDefense snap env w) else w in
  let w :=
    w |> setDefenseState
           (fun prev => prev |> set_falseAlarmDisabled true
                             |> set_falseAlarmDisabledUntil
                                  (Some disabledUntil)) in
  (* clearInterval of the old one, setInterval(checkFalseAlarmStatus, 60000) *)
  let w :=
    w |> world_falseAlarmCheckInterval (Some (falseAlarmDisabledUntil snap)) in
  (true, w |> alert FalseAlarmProtectionAlert).

(** A callback invoked from the latest render: its closure holds the state
    of the moment of the call. *)
Definition fromLatestRender {A : Type}
  (callback : EmergencyDefenseState -> Env -> World -> A) (env : Env)
  (w : World) : A :=
  callback (defenseState w) env w.

(** The interval firing once at each of the given instants. *)
Fixpoint intervalFiresAt (env : Env) (instants : list Z) (w : World) : World :=
  match instants with
  | [] => w
  | i :: rest =>
      intervalFiresAt env rest
        (intervalFires {|
           platform := platform env; now := i;
           brightness_read_ok := brightness_read_ok env;
           brightness_write_ok := brightness_write_ok env;
           dom_ok := dom_ok env; location := location env;
           insert_ok := insert_ok env |} w)
  end.

(** The dialog of [restoreBrightness]; it is returned beside the result. *)
Inductive BrightnessAlert := BrightnessRestoredAlert.

Definition restoreBrightness (snap : EmergencyDefenseState) (env : Env)
  (w : World) : bool * list BrightnessAlert * World :=
  let restored (w : World) :=
    (true, [BrightnessRestoredAlert],
     w |> setDefenseState (set_brightnessRestored true)) in
  match platform env with
  | Native =>
      let targetBrightness := or_default (originalBrightness snap) 0.8 in
      if brightness_write_ok env
      then restored (w |> world_brightness targetBrightness)
      else (false, [], w)
  | Web =>
      if dom_ok env
      then restored (w |> world_cssFilter None)
      else (false, [], w)
  end.

Definition emergencyBrightnessRestore (snap : EmergencyDefenseState)
  (env : Env) (w : World) : bool * World :=
  let restored (w : World) :=
    (true,
     if isActive snap
     then w |> setDefenseState (set_brightnessRestored true)
     else w) in
  match platform env with
  | Native =>
      if brightness_write_ok env
      then restored (w |> world_brightness 0.8)
      else (false, w)
  | Web =>
      if dom_ok env
      then restored (w |> world_cssFilter None)
      else (false, w)
  end.

Record DefenseStatus := {
  status_isActive : bool;
  status_batterySavingEnabled : bool;
  status_locationSent : bool;
  brightnessReduced : bool;
  status_brightnessRestored : bool;
  status_falseAlarmDisabled : bool;
  falseAlarmTimeRemaining : Z;
  status_isInitialized : bool }.

Definition getRemainingFalseAlarmTime (snap : EmergencyDefenseState)
  (env : Env) : Z :=
  match falseAlarmDisabledUntil snap with
  | None => 0%Z
  | Some until => Z.max 0 (ceil_minutes (until - now env))
  end.

Definition getDefenseStatus (snap : EmergencyDefenseState) (env : Env)
  : DefenseStatus := {|
  status_isActive := isActive snap;
  status_batterySavingEnabled := batterySavingEnabled snap;
  status_locationSent := locationSent snap;
  brightnessReduced :=
    match originalBrightness snap with
    | Some _ => negb (brightnessRestored snap)
    | None => false
    end;
  status_brightnessRestored := brightnessRestored snap;
  status_falseAlarmDisabled := falseAlarmDisabled snap;
  falseAlarmTimeRemaining :=
    match falseAlarmDisabledUntil snap with
    | Some until => Z.max 0 (ceil_minutes (until - now env))
    | None => 0%Z
    end;
  status_isInitialized := isInitialized snap |}.

(** The platform's answers of [env], at another instant. *)
Definition at_instant (i : Z) (env : Env) : Env := {|
  platform := platform env; now := i;
  brightness_read_ok := brightness_read_ok env;
  brightness_write_ok := brightness_write_ok env;
  dom_ok := dom_ok env; location := location env;
  insert_ok := insert_ok env |}.

(** A phone whose brightness can be read and written. *)
Definition phone (env : Env) : Prop :=
  platform env = Native
  /\ brightness_read_ok env = true
  /\ brightness_write_ok env = true.

(** The hook once mounted and idle: initialized, with no lock. *)
Definition idle (w : World) : Prop :=
  isInitialized (defenseState w) = true
  /\ falseAlarmDisabled (defenseState w) = false.

End Defense.

(** ** Dispatch of the warnings, [lib/supabase.ts] continued *)

Module Dispatch.
Import Geo.
Export Defense (Platform, Web, Native).

(** [Math.round]: the nearest integer, halves going up. *)
Definition Math_round (x : R) : Z := (up (x + 0.5) - 1)%Z.

(** An integer in a template literal. *)
Definition number_to_string (n : Z) : string :=
  DecimalString.NilZero.string_of_int (Z.to_int n).

(** [x.toFixed(1)], for [x] below 1e21. *)
Definition toFixed1 (x : R) : string :=
  let digits (x : R) :=
    let n := Math_round (10 * x) in
    (number_to_string (n / 10) ++ "." ++ number_to_string (n mod 10))%string in
  if Rltb x 0 then ("-" ++ digits (- x))%string else digits x.

Definition formatArrivalTime (seconds : R) : string :=
  if Rltb seconds 60 then
    (number_to_string (Math_round seconds) ++ " seconds")%string
  else if Rltb seconds 3600 then
    let minutes := Math_round (seconds / 60) in
    (number_to_string minutes ++ " minute"
     ++ (if (minutes =? 1)%Z then "" else "s"))%string
  else
    let hours := Math_round (seconds / 3600) in
    (number_to_string hours ++ " hour"
     ++ (if (hours =? 1)%Z then "" else "s"))%string.

Definition getIntensityDescription (intensity : R) : string :=
  (if Rleb intensity 2 then "Light"
   else if Rleb intensity 4 then "Moderate"
   else if Rleb intensity 6 then "Strong"
   else if Rleb intensity 8 then "Severe"
   else "Extreme")%string.

Record EarthquakeReport := {
  id : string;
  reporter_id : string;
  report_latitude : R;
  report_longitude : R;
  intensity : R;
  description : option string;
  report_timestamp : string }.

Inductive Priority := MAX | HIGH.

(** The [data] of a notification. *)
Record NotificationData := {
  type : string;
  earthquake_id : string;
  data_distance_km : R;
  data_arrival_time_seconds : R;
  data_is_urgent : bool;
  epicenter : R * R }.

Record Notification := {
  title : string;
  body : string;
  sound_is_default : bool;      (* 'default' rather than true *)
  priority : Priority;
  data : NotificationData }.

(** The answer and the request passed to [scheduleNotificationAsync], if
    one is made; [schedule_ok] tells whether that request resolves. *)
Definition sendEarthquakeWarning (platform : Platform) (schedule_ok : bool)
  (warning : WarningCalculation) (earthquakeData : EarthquakeReport)
  : bool * list Notification :=
  match platform with
  | Web => (true, [])
  | Native =>
      let intensityDesc := getIntensityDescription (intensity earthquakeData) in
      let arrivalTimeFormatted :=
        formatArrivalTime (arrival_time_seconds warning) in
      let title :=
        if is_urgent warning
        then "🚨 URGENT EARTHQUAKE ALERT"%string
        else "⚠️ Earthquake Warning"%string in
      let body :=
        if is_urgent warning
        then (intensityDesc ++ " earthquake "
              ++ toFixed1 (distance_km warning)
              ++ "km away. TAKE COVER NOW! Estimated arrival: "
              ++ arrivalTimeFormatted)%string
        else (intensityDesc ++ " earthquake reported "
              ++ toFixed1 (distance_km warning)
              ++ "km away. Estimated arrival in "
              ++ arrivalTimeFormatted ++ ". Prepare for shaking.")%string in
      (schedule_ok,
       [{| title := title;
           body := body;
           sound_is_default := is_urgent warning;
           priority := if is_urgent warning then MAX else HIGH;
           data := {|
             type := "earthquake_warning";
             earthquake_id := id earthquakeData;
             data_distance_km := distance_km warning;
             data_arrival_time_seconds := arrival_time_seconds warning;
             data_is_urgent := is_urgent warning;
             epicenter := (report_latitude earthquakeData,
                           report_longitude earthquakeData) |} |}])
  end.


(** *** Vocabulary of the statements *)


End Dispatch.

(** ** The warnings received, [useEarthquakeWarning] *)

Module WarningLog.
Import Dispatch.

Record EarthquakeWarning := {
  id : string;
  title : string;
  message : string;
  distance : R;
  arrivalTime : R;
  isUrgent : bool;
  timestamp : Z;
  epicenter : R * R }.

Record State := {
  recentWarnings : list EarthquakeWarning;
  lastWarning : option EarthquakeWarning }.

Definition initial : State :=
  {| recentWarnings := []; lastWarning := None |}.

(** [x || fallback] on a string: the empty string gives the fallback. *)
Definition or_text (x fallback : string) : string :=
  if String.eqb x "" then fallback else x.

(** The listener of [addNotificationReceivedListener], on a notification
    that arrives at instant [nw]. *)
Definition notificationReceived (nw : Z) (notification : Notification)
  (s : State) : State :=
  let data := Dispatch.data notification in
  if String.eqb (type data) "earthquake_warning" then
    let warning := {|
      id := earthquake_id data;
      title := or_text (Dispatch.title notification) "Earthquake Warning";
      message := or_text (body notification) "Earthquake detected";
      distance := data_distance_km data;
      arrivalTime := data_arrival_time_seconds data;
      isUrgent := data_is_urgent data;
      timestamp := nw;
      epicenter := Dispatch.epicenter data |} in
    {| lastWarning := Some warning;
       recentWarnings := warning :: firstn 9 (recentWarnings s) |}
  else s.

Definition clearWarnings (s : State) : State :=
  {| recentWarnings := []; lastWarning := None |}.

Definition dismissWarning (warningId : string) (s : State) : State :=
  {| recentWarnings :=
       filter (fun w => negb (String.eqb (id w) warningId))
         (recentWarnings s);
     lastWarning :=
       match lastWarning s with
       | Some w => if String.eqb (id w) warningId then None else Some w
       | None => None
       end |}.

Record WarningStats := {
  totalWarnings : nat;
  urgentWarnings : nat;
  averageDistance : R }.

Definition getWarningStats (s : State) : WarningStats :=
  let urgentCount := List.length (filter isUrgent (recentWarnings s)) in
  let averageDistance :=
    if (0 <? List.length (recentWarnings s))%nat
    then fold_left (fun sum w => sum + distance w) (recentWarnings s) 0
         / INR (List.length (recentWarnings s))
    else 0 in
  {| totalWarnings := List.length (recentWarnings s);
     urgentWarnings := urgentCount;
     averageDistance := averageDistance |}.

(** What the user of the hook may do. *)
Inductive Action :=
| Receive (nw : Z) (notification : Notification)
| Dismiss (warningId : string)
| Clear.

Definition act (a : Action) (s : State) : State :=
  match a with
  | Receive nw notification => notificationReceived nw notification s
  | Dismiss warningId => dismissWarning warningId s
  | Clear => clearWarnings s
  end.

End WarningLog.

(** ** The sensor feed, [useSensorData], and the screen that wires it to
    the detector *)

Module Sensors.
Export Detector (SensorData, x, y, z).

Record WaveformPoint := {
  value : R;
  timestamp : Z }.

Record State := {
  accelerometerData : SensorData;
  gyroscopeData : SensorData;
  waveformData : list WaveformPoint;
  accelerometerMagnitude : R;
  gyroscopeMagnitude : R }.

Definition initial : State := {|
  accelerometerData := {| x := 0; y := 0; z := 0 |};
  gyroscopeData := {| x := 0; y := 0; z := 0 |};
  waveformData := [];
  accelerometerMagnitude := 0;
  gyroscopeMagnitude := 0 |}.

Definition MAX_WAVEFORM_POINTS : nat := 50.

Definition calculateMagnitude (data : SensorData) : R :=
  sqrt (x data * x data + y data * y data + z data * z data).

(** The updater handed to [setWaveformData]; [slice(-n)] keeps the last
    [n] entries. *)
Definition pushWaveformPoint (newPoint : WaveformPoint)
  (prev : list WaveformPoint) : list WaveformPoint :=
  let updated := prev ++ [newPoint] in
  if (MAX_WAVEFORM_POINTS <? List.length updated)%nat
  then skipn (List.length updated - MAX_WAVEFORM_POINTS) updated
  else updated.

(** The accelerometer listener, on a reading that arrives at instant [nw]. *)
Definition accelerometerListener (data : SensorData) (nw : Z) (s : State)
  : State :=
  let magnitude := calculateMagnitude data in
  {| accelerometerData := data;
     gyroscopeData := gyroscopeData s;
     waveformData :=
       pushWaveformPoint {| value := magnitude; timestamp := nw |}
         (waveformData s);
     accelerometerMagnitude := magnitude;
     gyroscopeMagnitude := gyroscopeMagnitude s |}.

Definition gyroscopeListener (data : SensorData) (s : State) : State :=
  let magnitude := calculateMagnitude data in
  {| accelerometerData := accelerometerData s;
     gyroscopeData := data;
     waveformData := waveformData s;
     accelerometerMagnitude := accelerometerMagnitude s;
     gyroscopeMagnitude := magnitude |}.

(** The samples made up in a browser; [random] is what [Math.random()]
    answers, a number from 0 up to but not including 1. *)
Definition simulatedAccelerometerData (random : R) : SensorData :=
  let baseAccel := 9.81 in
  let noise := (random - 0.5) * 0.2 in
  {| x := noise; y := noise; z := baseAccel + noise |}.

Definition simulatedGyroscopeData (random : R) : SensorData :=
  let noise := (random - 0.5) * 0.1 in
  {| x := noise; y := noise; z := noise |}.

Definition simulateAccelerometer (random : R) (nw : Z) (s : State) : State :=
  accelerometerListener (simulatedAccelerometerData random) nw s.

Definition simulateGyroscope (random : R) (s : State) : State :=
  gyroscopeListener (simulatedGyroscopeData random) s.

(** What reaches the hook: a reading of one of the two sensors. *)
Inductive Reading :=
| AccelerometerReading (data : SensorData) (nw : Z)
| GyroscopeReading (data : SensorData).

Definition listener (r : Reading) (s : State) : State :=
  match r with
  | AccelerometerReading data nw => accelerometerListener data nw s
  | GyroscopeReading data => gyroscopeListener data s
  end.

(** The monitor screen passes the two samples of [useSensorData] to
    [useEarthquakeDetection], whose effect runs the detector on them: at
    mount on the initial samples, then after every reading. *)
Definition detectorEffect (sensors : State) (detector : Detector.State)
  (nw : Z) (sens : R) (loc : option Detector.Location) (act : option bool)
  : Detector.State * list Detector.Effect :=
  Detector.onSensorData detector (accelerometerData sensors)
    (gyroscopeData sensors) nw sens loc act.

(** *** Vocabulary of the statements *)

(** A tick of the detector on samples of the browser simulation: the
    accelerometer sample is a simulated one, the gyroscope sample a
    simulated one or still the initial one. *)
Definition simulated (t : Detector.Tick) : Prop :=
  exists ra rg : R,
    0 <= ra < 1 /\ 0 <= rg < 1
    /\ Detector.accelMagnitude t
       = Detector.calculateMagnitude (simulatedAccelerometerData ra)
    /\ (Detector.gyroMagnitude t
        = Detector.calculateMagnitude (simulatedGyroscopeData rg)
        \/ Detector.gyroMagnitude t
           = Detector.calculateMagnitude (gyroscopeData initial)).

(** The tick at mount: both samples still hold their initial zeros. *)
Definition mount_tick (nw : Z) (sens : R) (loc : option Detector.Location)
  (act : option bool) : Detector.Tick := {|
  Detector.now := nw;
  Detector.accelMagnitude :=
    Detector.calculateMagnitude (accelerometerData initial);
  Detector.gyroMagnitude :=
    Detector.calculateMagnitude (gyroscopeData initial);
  Detector.sensitivity := sens; Detector.capturedLocation := loc;
  Detector.activateEmergencyDefense := act |}.

(** The waveform points of the accelerometer readings among [rs]. *)
Definition points (rs : list Reading) : list WaveformPoint :=
  flat_map
    (fun r =>
       match r with
       | AccelerometerReading data nw =>
           [{| value := calculateMagnitude data; timestamp := nw |}]
       | GyroscopeReading _ => []
       end)
    rs.

End Sensors.

(** ** Sample runs *)

Module Scenario.
Import Detector.

(** A tick at sensitivity 1 (threshold 1.2), gyroscope at rest, no location
    fix, and a defense callback that succeeds. *)
Definition tick (nw : Z) (accel : R) : Tick := {|
  now := nw; accelMagnitude := accel; gyroMagnitude := 0; sensitivity := 1;
  capturedLocation := None; activateEmergencyDefense := Some true |}.

(** Intensity 3 (above 1.2 and above 2.5), and intensity 0. *)
Definition shaking (nw : Z) : Tick := tick nw 12.81.
Definition still (nw : Z) : Tick := tick nw 9.81.

(** Three users for an epicenter at (0, 0), newest rows first: one on the
    opposite side of the globe, one at the epicenter, one a quarter of the
    way round. *)
Definition user (id : string) (lat lon : R) : Geo.UserLocation := {|
  Geo.user_id := id; Geo.latitude := lat; Geo.longitude := lon;
  Geo.timestamp := EmptyString |}.

Definition antipode : Geo.UserLocation := user "antipode" 0 180.
Definition reporter : Geo.UserLocation := user "reporter" 0 0.
Definition quarter : Geo.UserLocation := user "quarter" 0 90.

Definition directory : Geo.QueryResult :=
  Geo.QueryData [antipode; reporter; quarter].

(** A phone on which every platform call succeeds, at instant [nw]. *)
Definition device (nw : Z) : Defense.Env := {|
  Defense.platform := Defense.Native; Defense.now := nw;
  Defense.brightness_read_ok := true; Defense.brightness_write_ok := true;
  Defense.dom_ok := true; Defense.location := Some (0, 0);
  Defense.insert_ok := true |}.

(** The instants of the first [n] firings of a one-minute interval that
    was registered at instant [start]. *)
Definition every_minute_from (start : Z) (n : nat) : list Z :=
  map (fun k => (start + 60000 * Z.of_nat k)%Z) (seq 1 n).

(** The hook of that phone once it is mounted; the screen is at 0.8. *)
Definition mounted : Defense.World :=
  Defense.initial
  |> Defense.world_initializationAttempted true
  |> Defense.setDefenseState (Defense.set_isInitialized true).

(** A browser in which every call succeeds. *)
Definition browser (nw : Z) : Defense.Env := {|
  Defense.platform := Defense.Web; Defense.now := nw;
  Defense.brightness_read_ok := true; Defense.brightness_write_ok := true;
  Defense.dom_ok := true; Defense.location := Some (0, 0);
  Defense.insert_ok := true |}.

(** One tick of the browser simulation: noise 0 on both sensors,
    sensitivity 1.2. *)
Definition quiet_tick : Tick := {|
  now := 20000;
  accelMagnitude :=
    calculateMagnitude (Sensors.simulatedAccelerometerData 0.5);
  gyroMagnitude := calculateMagnitude (Sensors.simulatedGyroscopeData 0.5);
  sensitivity := 1.2; capturedLocation := None;
  activateEmergencyDefense := Some true |}.

End Scenario.

(** * Properties *)

(** ** Comparisons *)

Lemma Rltb_true_iff a b : Rltb a b = true <-> a < b.
Proof. unfold Rltb. destruct (Rlt_dec a b); split; intros; try easy. Qed.

Lemma Rltb_false_iff a b : Rltb a b = false <-> b <= a.
Proof.
  unfold Rltb. destruct (Rlt_dec a b); split; intros; try easy; lra.
Qed.

Lemma Rleb_true_iff a b : Rleb a b = true <-> a <= b.
Proof. unfold Rleb. destruct (Rle_dec a b); split; intros; try easy. Qed.


(** ** The detector *)

Module DetectorProofs.
Import Detector Scenario.

Ltac crunch :=
  unfold captureEarthquakeLocation, activateEmergencyDefenseIfNeeded,
    activates, aboveThreshold, ci in *.

Ltac break_if :=
  match goal with
  | |- context [if ?c then _ else _] => destruct c eqn:?
  end.

(** Open one tick from a state whose [isInEvent] is known, and name the
    decision it takes. *)
Ltac open_tick s t Hi :=
  unfold detectEarthquake; cbv zeta;
  repeat first [rewrite Hi | progress cbn -[shouldDetect Nat.ltb]];
  change (shouldDetect _ t) with (detects s t).

(** *** The four branches of a tick *)

Lemma detect_idle s t :
  isInEvent s = false -> detects s t = false ->
  detectEarthquake s t =
    (s |> set_earthquakeIntensity (ci t)
       |> set_detectionBuffer
            (push_capped BUFFER_SIZE (detectionBuffer s) (ci t)), []).
Proof.
  intros Hi Hs. open_tick s t Hi. rewrite Hs.
  repeat first [rewrite Hi | progress cbn]. reflexivity.
Qed.

Lemma detect_start s t :
  isInEvent s = false -> detects s t = true ->
  let s' := fst (detectEarthquake s t) in
  isInEvent s' = true /\ eventStartTime s' = now t
  /\ lastDetectionTime s' = now t
  /\ eventIntensityBuffer s' = [ci t]
  /\ peakAcceleration s' = accelMagnitude t
  /\ currentEventLocation s' =
       match capturedLocation t with
       | Some l => Some l
       | None => currentEventLocation s
       end
  /\ defenseActivationAttempted s' =
       match activateEmergencyDefense t with
       | Some _ => Rltb EMERGENCY_DEFENSE_THRESHOLD (ci t)
       | None => false
       end
  /\ snd (detectEarthquake s t) =
       [CaptureLocation] ++
       match activateEmergencyDefense t with
       | Some _ =>
           if Rltb EMERGENCY_DEFENSE_THRESHOLD (ci t)
           then [ActivateDefense] else []
       | None => []
       end ++
       [ScheduleDetectedReset].
Proof.
  intros Hi Hs. cbv zeta. open_tick s t Hi. rewrite Hs.
  repeat first [rewrite Hi | progress cbn]. crunch.
  destruct (capturedLocation t), (activateEmergencyDefense t) as [[|]|]; cbn;
    try destruct (Rltb EMERGENCY_DEFENSE_THRESHOLD _); cbn;
    break_if; cbn; repeat split; reflexivity.
Qed.

Lemma detect_continue s t :
  isInEvent s = true -> aboveThreshold t = true ->
  let s' := fst (detectEarthquake s t) in
  isInEvent s' = true /\ eventStartTime s' = eventStartTime s
  /\ lastDetectionTime s' = lastDetectionTime s
  /\ currentEventLocation s' = currentEventLocation s
  /\ defenseActivationAttempted s'
     = defenseActivationAttempted s || activates s t
  /\ snd (detectEarthquake s t)
     = if activates s t then [ActivateDefense] else [].
Proof.
  intros Hi Hs. cbv zeta. open_tick s t Hi.
  repeat first [rewrite Hi | rewrite andb_false_r | progress cbn].
  crunch. rewrite Hs. cbn.
  destruct (activateEmergencyDefense t) as [[|]|],
      (defenseActivationAttempted s) eqn:Ea; cbn;
    try destruct (Rltb EMERGENCY_DEFENSE_THRESHOLD _); cbn; rewrite ?Hi; cbn;
    try break_if; cbn; rewrite ?Hi, ?Ea; repeat split; reflexivity.
Qed.

Lemma push_capped_nonempty cap buf v :
  (0 < cap)%nat -> (0 <? List.length (push_capped cap buf v))%nat = true.
Proof.
  intros Hc. unfold push_capped. apply Nat.ltb_lt.
  destruct (Nat.ltb_spec cap (List.length (buf ++ [v]))).
  - destruct (buf ++ [v]); cbn in *; lia.
  - rewrite length_app. cbn. lia.
Qed.

Lemma detect_end s t :
  isInEvent s = true -> aboveThreshold t = false ->
  event_reset (fst (detectEarthquake s t))
  /\ lastDetectionTime (fst (detectEarthquake s t)) = lastDetectionTime s
  /\ snd (detectEarthquake s t) =
       (if activates s t then [ActivateDefense] else []) ++
       (if Rleb 2 (IZR (now t - eventStartTime s) / 1000)
        then [AddEarthquakeEvent (finalized s t);
              SaveEarthquakeToDatabase (finalized s t) (currentEventLocation s)]
        else []).
Proof.
  intros Hi Hs. unfold event_reset. open_tick s t Hi.
  repeat first [rewrite Hi | rewrite andb_false_r | progress cbn -[Nat.ltb]].
  crunch. rewrite Hs. cbn -[Nat.ltb].
  replace (MIN_EVENT_DURATION / 1000) with 2
    by (unfold MIN_EVENT_DURATION; lra).
  destruct (activateEmergencyDefense t) as [[|]|],
      (defenseActivationAttempted s) eqn:Ea; cbn -[Nat.ltb];
    try destruct (Rltb EMERGENCY_DEFENSE_THRESHOLD _); cbn -[Nat.ltb];
    rewrite ?Hi, ?Ea; cbn -[Nat.ltb].
  all: repeat split; try reflexivity.
  all: destruct (Rleb 2 _); try reflexivity.
  all: unfold sum.
  all: unfold finalized, sum.
  all: rewrite push_capped_nonempty by (unfold INTENSITY_BUFFER_SIZE; lia).
  all: reflexivity.
Qed.

Lemma records_app a b : records (a ++ b) = records a ++ records b.
Proof. apply filter_app. Qed.

Lemma activations_app a b :
  activations (a ++ b) = (activations a + activations b)%nat.
Proof. unfold activations. now rewrite filter_app, length_app. Qed.

Lemma run_app s a b :
  run s (a ++ b) =
    (fst (run (fst (run s a)) b), snd (run s a) ++ snd (run (fst (run s a)) b)).
Proof.
  revert s. induction a as [|t a IH]; intros s; cbn.
  - now destruct (run s b).
  - destruct (detectEarthquake s t) as [s1 e1]. rewrite IH.
    destruct (run s1 a) as [s2 e2]; cbn. now rewrite app_assoc.
Qed.

Lemma run_one s t :
  run s [t] = (fst (detectEarthquake s t), snd (detectEarthquake s t)).
Proof. cbn. destruct (detectEarthquake s t). cbn. now rewrite app_nil_r. Qed.

Lemma run_cons s t ts :
  run s (t :: ts) =
    (fst (run (fst (detectEarthquake s t)) ts),
     snd (detectEarthquake s t) ++ snd (run (fst (detectEarthquake s t)) ts)).
Proof.
  cbn. destruct (detectEarthquake s t) as [s1 e1]. cbn.
  now destruct (run s1 ts).
Qed.


Lemma records_activates s t :
  records (if activates s t then [ActivateDefense] else []) = [].
Proof. now destruct (activates s t). Qed.


(** While the intensity stays above the threshold the event goes on: same
    start time, no record, and the callback budget only shrinks. *)
Lemma run_sustained mids : forall s,
  isInEvent s = true ->
  Forall (fun t => aboveThreshold t = true) mids ->
  isInEvent (fst (run s mids)) = true
  /\ eventStartTime (fst (run s mids)) = eventStartTime s
  /\ records (snd (run s mids)) = []
  /\ (activations (snd (run s mids)) + budget (fst (run s mids))
      <= budget s)%nat.
Proof.
  induction mids as [|t mids IH]; intros s Hin Hall.
  - cbn. repeat split; auto.
  - inversion Hall as [|? ? Ht Hrest]; subst.
    destruct (detect_continue s t Hin Ht) as (Hi & Hst & _ & _ & Hat & Heff).
    destruct (IH _ Hi Hrest) as (Hi' & Hst' & Hrec & Hact).
    rewrite run_cons; cbn [fst snd].
    rewrite records_app, activations_app, Heff, records_activates, Hrec.
    repeat split; auto; try congruence.
    assert (activations (if activates s t then [ActivateDefense] else [])
            + budget (fst (detectEarthquake s t)) <= budget s)%nat.
    { unfold budget. rewrite Hat. unfold activates.
      destruct (activateEmergencyDefense t), (defenseActivationAttempted s),
        (Rltb EMERGENCY_DEFENSE_THRESHOLD (ci t)); cbn; lia. }
    lia.
Qed.

(** A tick emits a record only when it ends an event that lasted two seconds
    or more. *)
Lemma record_only_when_event_ends s t :
  records (snd (detectEarthquake s t)) <> [] ->
  isInEvent s = true /\ aboveThreshold t = false
  /\ 2 <= IZR (now t - eventStartTime s) / 1000.
Proof.
  intros Hrec. destruct (isInEvent s) eqn:Hi.
  - destruct (aboveThreshold t) eqn:Ha.
    + destruct (detect_continue s t Hi Ha) as (_ & _ & _ & _ & _ & Heff).
      rewrite Heff, records_activates in Hrec. now elim Hrec.
    + destruct (detect_end s t Hi Ha) as (_ & _ & Heff).
      rewrite Heff, records_app, records_activates in Hrec.
      destruct (Rleb 2 _) eqn:E; [|now elim Hrec].
      apply Rleb_true_iff in E. auto.
  - exfalso. apply Hrec. destruct (detects s t) eqn:Hs.
    + destruct (detect_start s t Hi Hs) as (_ & _ & _ & _ & _ & _ & _ & ->).
      destruct (activateEmergencyDefense t);
        [destruct (Rltb _ (ci t))|]; reflexivity.
    + now rewrite (detect_idle s t Hi Hs).
Qed.

(** Cells that every branch of a tick treats alike. *)
Lemma detect_common s t :
  earthquakeIntensity (fst (detectEarthquake s t)) = ci t
  /\ detectionBuffer (fst (detectEarthquake s t))
     = push_capped BUFFER_SIZE (detectionBuffer s) (ci t).
Proof.
  destruct (isInEvent s) eqn:Hi; open_tick s t Hi;
    destruct (detects s t); repeat first [rewrite Hi | progress cbn]; crunch.
  all: repeat match goal with
       | |- context [match ?c with Some _ => _ | None => _ end] =>
           destruct c; cbn
       | |- context [if ?c then _ else _] => destruct c; cbn
       end; split; reflexivity.
Qed.

Lemma lastn_app {A} n (a b : list A) :
  lastn n (a ++ b) = lastn (n - List.length b) a ++ lastn n b.
Proof.
  unfold lastn. rewrite skipn_app, length_app. f_equal.
  - destruct (Nat.le_gt_cases n (List.length b)).
    + rewrite !skipn_all2 by lia. reflexivity.
    + f_equal. lia.
  - f_equal. lia.
Qed.

Lemma lastn_lastn {A} m n (l : list A) :
  (m <= n)%nat -> lastn m (lastn n l) = lastn m l.
Proof.
  intros Hmn. unfold lastn. rewrite skipn_skipn, length_skipn. f_equal. lia.
Qed.

Lemma push_capped_lastn cap buf v :
  (List.length buf <= cap)%nat ->
  push_capped cap buf v = lastn cap (buf ++ [v]).
Proof.
  intros Hlen. unfold push_capped, lastn.
  rewrite length_app. cbn [List.length].
  destruct (Nat.ltb_spec cap (List.length buf + 1)).
  - replace (List.length buf + 1 - cap)%nat with 1%nat by lia.
    now destruct (buf ++ [v]).
  - replace (List.length buf + 1 - cap)%nat with 0%nat by lia. reflexivity.
Qed.

Lemma lastn_length {A} n (l : list A) : (List.length (lastn n l) <= n)%nat.
Proof. unfold lastn. rewrite length_skipn. lia. Qed.

(** The detection window holds the intensities of the last (at most) ten
    ticks. *)
Lemma detection_window_is_last_ten (ts : list Tick) :
  detectionBuffer (fst (run initial ts)) = lastn 10 (map ci ts).
Proof.
  assert (H : forall ts s pre,
             detectionBuffer s = lastn 10 pre ->
             detectionBuffer (fst (run s ts)) = lastn 10 (pre ++ map ci ts)).
  { clear ts. induction ts as [|t ts IH]; intros s pre Hs.
    - cbn. now rewrite app_nil_r.
    - rewrite run_cons. cbn [fst map].
      replace (pre ++ ci t :: map ci ts) with ((pre ++ [ci t]) ++ map ci ts)
        by now rewrite <- app_assoc.
      apply IH. destruct (detect_common s t) as [_ ->].
      unfold BUFFER_SIZE. rewrite push_capped_lastn
        by (rewrite Hs; apply lastn_length).
      rewrite Hs, lastn_app, lastn_lastn by lia.
      now rewrite <- lastn_app. }
  apply (H ts initial []). reflexivity.
Qed.



Lemma detects_true_iff s t :
  detects s t = true <->
  threshold (sensitivity t) < ci t
  /\ threshold (sensitivity t) * 0.8
       < sum (push_capped BUFFER_SIZE (detectionBuffer s) (ci t))
         / INR (List.length
                  (push_capped BUFFER_SIZE (detectionBuffer s) (ci t)))
  /\ (10000 < now t - lastDetectionTime s)%Z.
Proof.
  unfold detects, shouldDetect.
  cbn [detectionBuffer lastDetectionTime set_detectionBuffer].
  fold (ci t). cbv zeta.
  rewrite !andb_true_iff, !Rltb_true_iff, Z.ltb_lt. unfold DETECTION_COOLDOWN.
  tauto.
Qed.

(** Claim C3.  From IDLE, a tick starts an event exactly when the current
    intensity exceeds the threshold, the average over the sliding window
    (which then ends with the current sample) exceeds 0.8 times the
    threshold, and more than 10000 ms have passed since the last detection,
    the threshold being 1.2 * sensitivity.  Otherwise the tick starts
    nothing: no effect, start time and detection time untouched. *)
Theorem event_starts_iff_three_conjuncts :
  forall (s : State) (t : Tick),
    isInEvent s = false ->
    let thr := 1.2 * sensitivity t in
    let window := push_capped 10 (detectionBuffer s) (ci t) in
    let started := isInEvent (fst (detectEarthquake s t)) = true in
    (started <->
       thr < ci t
       /\ thr * 0.8 < sum window / INR (List.length window)
       /\ (10000 < now t - lastDetectionTime s)%Z)
    /\ (started ->
          eventStartTime (fst (detectEarthquake s t)) = now t
          /\ lastDetectionTime (fst (detectEarthquake s t)) = now t)
    /\ (~ started ->
          snd (detectEarthquake s t) = []
          /\ eventStartTime (fst (detectEarthquake s t)) = eventStartTime s
          /\ lastDetectionTime (fst (detectEarthquake s t))
             = lastDetectionTime s)
    /\ detectionBuffer (fst (detectEarthquake s t)) = window.
Proof.
  intros s t Hidle thr window started.
  change (1.2 * sensitivity t) with (threshold (sensitivity t)) in thr.
  destruct (detects s t) eqn:Hs.
  - destruct (detect_start s t Hidle Hs) as (Hi & Hst & Hl & _).
    assert (Hb : detectionBuffer (fst (detectEarthquake s t)) = window).
    { open_tick s t Hidle. rewrite Hs.
      repeat first [rewrite Hidle | progress cbn]. crunch.
      destruct (capturedLocation t),
        (activateEmergencyDefense t) as [[|]|]; cbn;
        try destruct (Rltb EMERGENCY_DEFENSE_THRESHOLD _); cbn;
        break_if; reflexivity. }
    apply detects_true_iff in Hs.
    unfold started. repeat split; auto; try tauto.
  - unfold started. rewrite (detect_idle s t Hidle Hs). cbn.
    rewrite Hidle. repeat split; auto; try discriminate.
    intros H. apply detects_true_iff in H. congruence.
Qed.



(** *** Sample runs *)

(** Arithmetic on the explicit numbers of the samples. *)
Ltac Rsolve :=
  cbn; unfold ci, combinedIntensity, threshold, sum, push_capped,
    EMERGENCY_DEFENSE_THRESHOLD;
  cbn; unfold Rabs; repeat destruct Rcase_abs; lra.

Lemma shaking_above nw : aboveThreshold (shaking nw) = true.
Proof. apply Rltb_true_iff. Rsolve. Qed.

Lemma still_below nw : aboveThreshold (still nw) = false.
Proof. apply Rltb_false_iff. Rsolve. Qed.

Lemma shaking_starts : detects initial (shaking 20000) = true.
Proof.
  apply detects_true_iff. repeat split; first [Rsolve | cbn; lia].
Qed.


(** The first strong sample after start-up opens an event. *)
Lemma event_starts_sample :
  isInEvent (fst (detectEarthquake initial (shaking 20000))) = true.
Proof.
  apply (event_starts_iff_three_conjuncts initial (shaking 20000) eq_refl).
  repeat split; first [Rsolve | cbn; lia].
Defined.


(** Two separate events, both above 2.5 throughout: the callback is invoked
    once in each. *)
Example two_events_two_activations :
  activations
    (snd (run initial [shaking 20000; shaking 21000; still 23000;
                       shaking 40000; shaking 41000; still 43000])) = 2%nat.
Proof.
  change [shaking 20000; shaking 21000; still 23000;
          shaking 40000; shaking 41000; still 43000]
    with ([shaking 20000; shaking 21000; still 23000]
          ++ [shaking 40000; shaking 41000; still 43000]).
  rewrite run_app. cbn [snd]. rewrite activations_app.
  pose proof (detection_window_is_last_ten
                [shaking 20000; shaking 21000; still 23000]) as Hbuf.
  (* first event *)
  rewrite !run_cons. cbn [fst snd run]. rewrite !app_nil_r in *.
  rewrite !run_cons in Hbuf. cbn [fst snd run] in Hbuf.
  destruct (detect_start initial (shaking 20000) eq_refl shaking_starts)
    as (Hi1 & _ & Hl1 & _ & _ & _ & Ha1 & ->).
  set (s1 := fst (detectEarthquake initial (shaking 20000))) in *.
  destruct (detect_continue s1 (shaking 21000) Hi1 (shaking_above _))
    as (Hi2 & _ & Hl2 & _ & Ha2 & ->).
  set (s2 := fst (detectEarthquake s1 (shaking 21000))) in *.
  destruct (detect_end s2 (still 23000) Hi2 (still_below _))
    as (Hr3 & Hl3 & ->).
  set (s3 := fst (detectEarthquake s2 (still 23000))) in *.
  (* second event *)
  assert (Hstart : detects s3 (shaking 40000) = true).
  { apply detects_true_iff. rewrite Hbuf, Hl3, Hl2, Hl1.
    repeat split; first [Rsolve | cbn; lia]. }
  destruct (detect_start s3 (shaking 40000) (proj1 Hr3) Hstart)
    as (Hi4 & _ & _ & _ & _ & _ & Ha4 & ->).
  set (s4 := fst (detectEarthquake s3 (shaking 40000))) in *.
  destruct (detect_continue s4 (shaking 41000) Hi4 (shaking_above _))
    as (Hi5 & _ & _ & _ & Ha5 & ->).
  set (s5 := fst (detectEarthquake s4 (shaking 41000))) in *.
  destruct (detect_end s5 (still 43000) Hi5 (still_below _)) as (_ & _ & ->).
  assert (Hhigh : forall nw,
             Rltb EMERGENCY_DEFENSE_THRESHOLD (ci (shaking nw)) = true).
  { intros nw. apply Rltb_true_iff. Rsolve. }
  assert (Hlow : forall nw,
             Rltb EMERGENCY_DEFENSE_THRESHOLD (ci (still nw)) = false).
  { intros nw. apply Rltb_false_iff. Rsolve. }
  cbn [activateEmergencyDefense shaking tick] in *.
  rewrite Hhigh in *.
  unfold activates in *. cbn [activateEmergencyDefense shaking still tick] in *.
  rewrite ?Hhigh, ?Hlow in *.
  rewrite Ha2, Ha1 in *. rewrite Ha5, Ha4 in *. cbn [negb andb orb] in *.
  rewrite !activations_app. do 2 destruct (Rleb 2 _); reflexivity.
Qed.

End DetectorProofs.

(** ** The warning engine *)

Module GeoProofs.
Import Geo Scenario.

Section SortFacts.
Context {A : Type} (key : A -> R).

Let compareFn (a b : A) : R := key a - key b.

Lemma insert_perm x l : Permutation (insert compareFn x l) (x :: l).
Proof.
  induction l as [|y l IH]; cbn; [reflexivity|].
  destruct (Rltb (compareFn x y) 0); [reflexivity|].
  rewrite IH. apply perm_swap.
Qed.

Lemma sort_acc_perm l : forall acc,
  Permutation (fold_left (fun sorted x => insert compareFn x sorted) l acc)
    (acc ++ l).
Proof.
  induction l as [|x l IH]; intros acc; cbn.
  - now rewrite app_nil_r.
  - rewrite IH, insert_perm. apply Permutation_middle.
Qed.

Lemma sort_perm l : Permutation (sort compareFn l) l.
Proof. apply (sort_acc_perm l []). Qed.



End SortFacts.

Lemma forEach_push lat lon l : forall acc,
  fold_left
    (fun warnings userLocation =>
       match warningFor lat lon userLocation with
       | Some w => warnings ++ [w]
       | None => warnings
       end) l acc
  = acc ++ flat_map (pushed lat lon) l.
Proof.
  induction l as [|u l IH]; intros acc; cbn.
  - now rewrite app_nil_r.
  - rewrite IH. unfold pushed at 2.
    destruct (warningFor lat lon u); cbn;
      [now rewrite <- app_assoc | reflexivity].
Qed.

Lemma warnings_perm lat lon mag q :
  Permutation (calculateWarningsForUsers lat lon mag q)
    (flat_map (pushed lat lon) (getRecentUserLocations q)).
Proof.
  unfold calculateWarningsForUsers. cbv zeta.
  rewrite (sort_perm arrival_time_seconds), forEach_push. reflexivity.
Qed.

Lemma in_warnings lat lon mag q w :
  In w (calculateWarningsForUsers lat lon mag q) <->
  exists u, In u (getRecentUserLocations q) /\ warningFor lat lon u = Some w.
Proof.
  split.
  - intros H. apply (Permutation_in _ (warnings_perm lat lon mag q)) in H.
    apply in_flat_map in H. destruct H as (u & Hu & Hw). exists u. split; auto.
    unfold pushed in Hw. destruct (warningFor lat lon u); cbn in Hw;
      [destruct Hw as [->|[]]; reflexivity | contradiction].
  - intros (u & Hu & Hw).
    apply (Permutation_in _ (Permutation_sym (warnings_perm lat lon mag q))).
    apply in_flat_map. exists u. split; auto.
    unfold pushed. rewrite Hw. now left.
Qed.

Lemma warningFor_Some lat lon u w :
  warningFor lat lon u = Some w ->
  let d := calculateHaversineDistance lat lon (latitude u) (longitude u) in
  1 <= d /\ warned_user_id w = user_id u /\ distance_km w = d
  /\ arrival_time_seconds w = d / 3.5
  /\ is_urgent w = isUrgent (d / 3.5)
  /\ user_location w = (latitude u, longitude u).
Proof.
  unfold warningFor. cbv zeta.
  destruct (Rltb _ 1) eqn:E; [discriminate|].
  apply Rltb_false_iff in E. intros [= <-]. cbn.
  unfold calculateArrivalTime, DEFAULT_WAVE_SPEED, S_WAVE. repeat split; auto.
Qed.


Lemma mostRecentPerUser_spec rows : forall seen,
  NoDup (map user_id (mostRecentPerUser seen rows))
  /\ (forall u, In u (mostRecentPerUser seen rows) ->
        In u rows /\ ~ In (user_id u) seen).
Proof.
  induction rows as [|r rows IH]; intros seen; cbn.
  - split; [constructor | contradiction].
  - destruct (existsb (String.eqb (user_id r)) seen) eqn:E.
    + destruct (IH seen) as [Hn Hin]. split; auto.
      intros u Hu. destruct (Hin u Hu). auto.
    + destruct (IH (user_id r :: seen)) as [Hn Hin]. split.
      * cbn. constructor; auto. intros Hc. apply in_map_iff in Hc.
        destruct Hc as (u & Hid & Hu). destruct (Hin u Hu) as [_ Hns].
        apply Hns. left. congruence.
      * intros u [<-|Hu].
        -- split; [now left|]. intros Hc.
           assert (existsb (String.eqb (user_id r)) seen = true); [|congruence].
           apply existsb_exists. exists (user_id r). split; auto.
           apply String.eqb_refl.
        -- destruct (Hin u Hu) as [Hr Hns]. split; [now right|].
           intros Hc. apply Hns. now right.
Qed.

Lemma candidates_distinct q : NoDup (map user_id (getRecentUserLocations q)).
Proof.
  destruct q; cbn; [constructor | apply mostRecentPerUser_spec].
Qed.

Lemma NoDup_map_inj {A B} (f : A -> B) l a b :
  NoDup (map f l) -> In a l -> In b l -> f a = f b -> a = b.
Proof.
  induction l as [|c l IH]; cbn; [contradiction|].
  intros Hn Ha Hb Hf. inversion Hn as [|? ? Hc Hn']; subst.
  destruct Ha as [->|Ha], Hb as [->|Hb]; auto.
  - exfalso. apply Hc. rewrite Hf. now apply in_map.
  - exfalso. apply Hc. rewrite <- Hf. now apply in_map.
Qed.



Lemma atan2_0_pos x : 0 < x -> atan2 0 x = 0.
Proof.
  intros Hx. unfold atan2. apply Rltb_true_iff in Hx. rewrite Hx.
  replace (0 / x) with 0 by (unfold Rdiv; ring). apply atan_0.
Qed.

Lemma atan2_pos_0 y : 0 < y -> atan2 y 0 = PI / 2.
Proof.
  intros Hy. unfold atan2.
  replace (Rltb 0 0) with false by (symmetry; apply Rltb_false_iff; lra).
  apply Rltb_true_iff in Hy. now rewrite Hy.
Qed.

Lemma haversine_unfold lat1 lon1 lat2 lon2 :
  calculateHaversineDistance lat1 lon1 lat2 lon2 =
  6371 * (2 * atan2 (sqrt (hav lat1 lon1 lat2 lon2))
                    (sqrt (1 - hav lat1 lon1 lat2 lon2))).
Proof. reflexivity. Qed.

Lemma hav_sym lat1 lon1 lat2 lon2 :
  hav lat1 lon1 lat2 lon2 = hav lat2 lon2 lat1 lon1.
Proof.
  unfold hav.
  replace (toRadians (lat1 - lat2) / 2) with (- (toRadians (lat2 - lat1) / 2))
    by (unfold toRadians; field).
  replace (toRadians (lon1 - lon2) / 2) with (- (toRadians (lon2 - lon1) / 2))
    by (unfold toRadians; field).
  rewrite !sin_neg. ring.
Qed.

Lemma haversine_origin : calculateHaversineDistance 0 0 0 0 = 0.
Proof.
  rewrite haversine_unfold.
  assert (H : hav 0 0 0 0 = 0).
  { unfold hav, toRadians.
    replace ((0 - 0) * (PI / 180) / 2) with 0 by field.
    rewrite sin_0. ring. }
  rewrite H, Rminus_0_r, sqrt_0, sqrt_1, atan2_0_pos by lra. ring.
Qed.

Lemma haversine_antipode : calculateHaversineDistance 0 0 0 180 = 6371 * PI.
Proof.
  rewrite haversine_unfold.
  assert (H : hav 0 0 0 180 = 1).
  { unfold hav, toRadians.
    replace ((0 - 0) * (PI / 180) / 2) with 0 by field.
    replace ((180 - 0) * (PI / 180) / 2) with (PI / 2) by field.
    replace (0 * (PI / 180)) with 0 by field.
    rewrite sin_0, cos_0, sin_PI2. ring. }
  rewrite H. replace (1 - 1) with 0 by ring.
  rewrite sqrt_0, sqrt_1, atan2_pos_0 by lra. field.
Qed.

(** Claim C7.  The haversine distance of the origin to itself is 0, the
    distance is symmetric in its two points, and the Earth radius it uses
    is 6371 km: two opposite points of the equator are 6371 * pi apart. *)
Theorem haversine_zero_and_symmetric :
  calculateHaversineDistance 0 0 0 0 = 0
  /\ (forall lat1 lon1 lat2 lon2 : R,
        calculateHaversineDistance lat1 lon1 lat2 lon2
        = calculateHaversineDistance lat2 lon2 lat1 lon1)
  /\ calculateHaversineDistance 0 0 0 180 = 6371 * PI.
Proof.
  split; [apply haversine_origin|]. split; [|apply haversine_antipode].
  intros. rewrite !haversine_unfold, (hav_sym lat1 lon1 lat2 lon2).
  reflexivity.
Qed.

(** Claim C4.  The arrival time is the distance divided by the wave speed,
    which defaults to 3.5 km/s: 350 km at 3.5 km/s take 100 s and 35 km take
    10 s.  Every warning computed has the default-speed arrival time of its
    distance, and is urgent exactly when that time is strictly below 10 s:
    10 s is not urgent, 9.99 s is. *)
Theorem arrival_time_and_urgency :
  (forall d : R, calculateArrivalTime d None = d / 3.5)
  /\ (forall d v : R, calculateArrivalTime d (Some v) = d / v)
  /\ calculateArrivalTime 350 (Some 3.5) = 100
  /\ calculateArrivalTime 35 (Some 3.5) = 10
  /\ (forall (epicenterLat epicenterLon magnitude : R) (q : QueryResult),
        Forall
          (fun w =>
             arrival_time_seconds w = calculateArrivalTime (distance_km w) None
             /\ is_urgent w = isUrgent (arrival_time_seconds w))
          (calculateWarningsForUsers epicenterLat epicenterLon magnitude q))
  /\ (forall arrivalTime : R, isUrgent arrivalTime = true <-> arrivalTime < 10)
  /\ isUrgent 10 = false
  /\ isUrgent 9.99 = true.
Proof.
  split; [|split; [|split; [|split; [|split; [|split; [|split]]]]]].
  - intros d. unfold calculateArrivalTime, DEFAULT_WAVE_SPEED, S_WAVE. lra.
  - reflexivity.
  - unfold calculateArrivalTime. lra.
  - unfold calculateArrivalTime. lra.
  - intros lat lon mag q. apply Forall_forall. intros w Hw.
    apply in_warnings in Hw. destruct Hw as (u & _ & Hw).
    apply warningFor_Some in Hw. destruct Hw as (_ & _ & -> & -> & -> & _).
    split; reflexivity.
  - intros a. apply Rltb_true_iff.
  - apply Rltb_false_iff. lra.
  - apply Rltb_true_iff. lra.
Qed.

(** *** A worked fan-out *)

Lemma atan2_diag s : 0 < s -> atan2 s s = PI / 4.
Proof.
  intros Hs. unfold atan2. apply Rltb_true_iff in Hs as Hb. rewrite Hb.
  replace (s / s) with 1 by (field; lra). apply atan_1.
Qed.

Lemma hav_quarter : hav 0 0 0 90 = 1 / 2.
Proof.
  unfold hav, toRadians.
  replace ((0 - 0) * (PI / 180) / 2) with 0 by field.
  replace ((90 - 0) * (PI / 180) / 2) with (PI / 4) by field.
  replace (0 * (PI / 180)) with 0 by field.
  rewrite sin_0, cos_0, sin_PI4.
  assert (H : sqrt 2 * sqrt 2 = 2) by (apply sqrt_sqrt; lra).
  assert (H0 : sqrt 2 <> 0) by (intros E; rewrite E in H; lra).
  replace (0 * 0 + 1 * 1 * (1 / sqrt 2) * (1 / sqrt 2))
    with (1 / (sqrt 2 * sqrt 2)) by (field; auto).
  now rewrite H.
Qed.

Lemma distance_to_quarter :
  calculateHaversineDistance 0 0 0 90 = 6371 * PI / 2.
Proof.
  rewrite haversine_unfold, hav_quarter.
  replace (1 - 1 / 2) with (1 / 2) by lra.
  rewrite atan2_diag by (apply sqrt_lt_R0; lra). field.
Qed.

(** The three users of the sample directory: the one at the epicenter gets
    no warning, and the nearer of the other two comes first although its
    row came last. *)
Example fan_out_from_origin :
  map (fun w => (warned_user_id w, distance_km w, is_urgent w))
    (calculateWarningsForUsers 0 0 6 directory)
  = [("quarter"%string, 6371 * PI / 2, false);
     ("antipode"%string, 6371 * PI, false)].
Proof.
  pose proof PI2_1 as Hpi.
  unfold calculateWarningsForUsers, directory. cbn -[warningFor sort].
  unfold warningFor.
  cbn [latitude longitude antipode reporter quarter user user_id].
  rewrite haversine_antipode, distance_to_quarter, haversine_origin.
  unfold calculateArrivalTime, DEFAULT_WAVE_SPEED, S_WAVE, isUrgent.
  replace (Rltb 0 1) with true by (symmetry; apply Rltb_true_iff; lra).
  replace (Rltb (6371 * PI) 1) with false
    by (symmetry; apply Rltb_false_iff; lra).
  replace (Rltb (6371 * PI / 2) 1) with false
    by (symmetry; apply Rltb_false_iff; lra).
  replace (Rltb (6371 * PI / 3.5) 10) with false
    by (symmetry; apply Rltb_false_iff; lra).
  replace (Rltb (6371 * PI / 2 / 3.5) 10) with false
    by (symmetry; apply Rltb_false_iff; lra).
  cbn.
  replace (Rltb (6371 * PI / 2 / 3.5 - 6371 * PI / 3.5) 0) with true
    by (symmetry; apply Rltb_true_iff; lra).
  reflexivity.
Qed.

End GeoProofs.

(** ** The defense mode controller *)

Module DefenseProofs.
Import Defense Scenario.

(** Claim C10.  Deactivation always answers [true] and always resets the
    defense state: [isActive], [batterySavingEnabled], [locationSent] and
    [brightnessRestored] are false and [originalBrightness] is cleared
    afterwards, the lock fields and [isInitialized] being left alone.  This
    holds for every answer of the platform: when the brightness write fails
    the screen stays as it was, and the reset and the result are the same. *)
Theorem deactivation_always_resets_and_succeeds :
  forall (snap : EmergencyDefenseState) (env : Env) (w : World),
    let out := deactivateEmergencyDefense snap env w in
    let st := defenseState (snd out) in
    fst out = true
    /\ isActive st = false
    /\ batterySavingEnabled st = false
    /\ locationSent st = false
    /\ brightnessRestored st = false
    /\ originalBrightness st = None
    /\ falseAlarmDisabled st = falseAlarmDisabled (defenseState w)
    /\ falseAlarmDisabledUntil st = falseAlarmDisabledUntil (defenseState w)
    /\ isInitialized st = isInitialized (defenseState w)
    /\ alerts (snd out) = alerts w ++ [DefenseDeactivatedAlert]
    /\ (platform env = Native -> brightness_write_ok env = false ->
        brightness (snd out) = brightness w).
Proof.
  intros snap env w. unfold deactivateEmergencyDefense.
  destruct (platform env), (brightness_write_ok env), (dom_ok env); cbn;
    repeat split; auto; discriminate.
Qed.

Lemma deactivate_device snap env w :
  platform env = Native -> brightness_write_ok env = true ->
  brightness (snd (deactivateEmergencyDefense snap env w))
  = or_default (originalBrightness snap) 0.8.
Proof.
  intros Hp Hw. unfold deactivateEmergencyDefense. rewrite Hp, Hw. reflexivity.
Qed.

(** Engaging the lock: defense mode is off afterwards and the lock runs for
    thirty minutes from the moment of the call. *)
Lemma lock_engages env w :
  let out := fromLatestRender disableForFalseAlarm env w in
  let st := defenseState (snd out) in
  fst out = true
  /\ isActive st = false
  /\ batterySavingEnabled st
     = (if isActive (defenseState w) then false
        else batterySavingEnabled (defenseState w))
  /\ locationSent st
     = (if isActive (defenseState w) then false
        else locationSent (defenseState w))
  /\ falseAlarmDisabled st = true
  /\ falseAlarmDisabledUntil st = Some (now env + 1800000)%Z
  /\ (isActive (defenseState w) = true -> platform env = Native ->
      brightness_write_ok env = true ->
      brightness (snd out)
      = or_default (originalBrightness (defenseState w)) 0.8)
  /\ falseAlarmCheckInterval (snd out)
     = Some (falseAlarmDisabledUntil (defenseState w)).
Proof.
  unfold fromLatestRender, disableForFalseAlarm.
  destruct (isActive (defenseState w)) eqn:Ha; cbn.
  - unfold deactivateEmergencyDefense.
    destruct (platform env), (brightness_write_ok env), (dom_ok env); cbn;
      repeat split; auto; discriminate.
  - rewrite Ha. repeat split; auto; discriminate.
Qed.

(** While the flag is set, activation is refused, says how many minutes
    remain, and turns nothing on. *)
Lemma locked_activation_fails env w :
  falseAlarmDisabled (defenseState w) = true ->
  let out := fromLatestRender activateEmergencyDefense env w in
  fst out = false
  /\ isActive (defenseState (snd out)) = isActive (defenseState w)
  /\ falseAlarmDisabled (defenseState (snd out)) = true
  /\ last (alerts (snd out)) DefenseDeactivatedAlert
     = DefenseDisabledAlert
         match falseAlarmDisabledUntil (defenseState w) with
         | Some until => ceil_minutes (until - now env)
         | None => 0%Z
         end.
Proof.
  intros Hl. unfold fromLatestRender, activateEmergencyDefense. rewrite Hl.
  cbn [fst snd]. unfold initializeBrightnessState, alert.
  destruct (isInitialized (defenseState w)), (initializationAttempted w),
    (platform env), (brightness_read_ok env), (brightness_write_ok env),
    (dom_ok env); cbn;
    try match goal with
        | |- context [Rltb ?a ?b] => destruct (Rltb a b); cbn
        end;
    rewrite ?Hl, ?last_last; repeat split; reflexivity.
Qed.

(** Unlocked, activation goes through; on a device it always counts the
    battery measure, so it reports success. *)
Lemma unlocked_activation_succeeds env w :
  falseAlarmDisabled (defenseState w) = false ->
  platform env = Native ->
  let out := fromLatestRender activateEmergencyDefense env w in
  fst out = true /\ isActive (defenseState (snd out)) = true.
Proof.
  intros Hl Hp. unfold fromLatestRender, activateEmergencyDefense.
  rewrite Hl, Hp. unfold initializeBrightnessState. rewrite Hp.
  destruct (isInitialized (defenseState w)), (initializationAttempted w),
    (brightness_read_ok env), (brightness_write_ok env); cbn;
    repeat (match goal with
            | |- context [Rltb ?a ?b] => destruct (Rltb a b)
            end; cbn);
    destruct (location env), (insert_ok env); cbn; split; reflexivity.
Qed.


(** An interval whose callback closed over [falseAlarmDisabledUntil = null]
    does nothing, however often and whenever it fires. *)
Lemma interval_closed_over_null env instants : forall w,
  falseAlarmCheckInterval w = Some None ->
  intervalFiresAt env instants w = w.
Proof.
  induction instants as [|i rest IH]; intros w Hw; cbn; [reflexivity|].
  unfold intervalFires. rewrite Hw. cbn. now apply IH.
Qed.

(** Engaged from a render in which no lock was set, the lock is never
    lifted by its interval. *)
Lemma lock_never_clears env instants w :
  falseAlarmDisabledUntil (defenseState w) = None ->
  let locked := snd (fromLatestRender disableForFalseAlarm env w) in
  intervalFiresAt env instants locked = locked
  /\ falseAlarmDisabled (defenseState locked) = true.
Proof.
  intros Hn locked. split.
  - apply interval_closed_over_null.
    destruct (lock_engages env w) as (_ & _ & _ & _ & _ & _ & _ & Hi).
    unfold locked. now rewrite Hi, Hn.
  - apply (lock_engages env w).
Qed.

(** Activation leaves the lock and its interval alone. *)
Lemma activation_keeps_lock snap env w :
  let w' := snd (activateEmergencyDefense snap env w) in
  falseAlarmDisabled (defenseState w') = falseAlarmDisabled (defenseState w)
  /\ falseAlarmDisabledUntil (defenseState w')
     = falseAlarmDisabledUntil (defenseState w)
  /\ falseAlarmCheckInterval w' = falseAlarmCheckInterval w.
Proof.
  unfold activateEmergencyDefense, initializeBrightnessState.
  destruct (isInitialized snap), (initializationAttempted w),
    (falseAlarmDisabled snap), (platform env), (brightness_read_ok env),
    (brightness_write_ok env), (dom_ok env), (location env), (insert_ok env);
    cbn;
    repeat (match goal with
            | |- context [Rltb ?a ?b] => destruct (Rltb a b)
            end; cbn);
    repeat split; reflexivity.
Qed.

(** The sample phone, switched on and put in defense mode at instant 0:
    the screen goes from 0.8 to 0.1 and the old level is remembered. *)
Lemma sample_activation :
  let out := fromLatestRender activateEmergencyDefense (device 0) initial in
  fst out = true
  /\ isActive (defenseState (snd out)) = true
  /\ originalBrightness (defenseState (snd out)) = Some 0.8
  /\ brightness (snd out) = 0.1
  /\ falseAlarmDisabledUntil (defenseState (snd out)) = None.
Proof.
  unfold fromLatestRender, activateEmergencyDefense,
    initializeBrightnessState. cbn.
  replace (Rltb 0.8 0.3) with false by (symmetry; apply Rltb_false_iff; lra).
  cbn.
  replace (Rltb 0.2 0.8) with true by (symmetry; apply Rltb_true_iff; lra).
  cbn. repeat split; reflexivity.
Qed.

(** Claim C8, at a concrete run.  A phone is put in defense mode at instant
    0 and the false-alarm lock is engaged one second later: defense mode is
    switched off, the screen is back at 0.8, and the lock is set to expire
    at 1 801 000 ms, thirty minutes on.  The one-minute interval then fires
    31 times and activation is attempted 31 minutes after the lock was
    engaged.  The lock is still in force: the attempt fails, defense mode
    stays off, and the dialog announces -1 minutes remaining. *)
Theorem false_alarm_lock_outlives_thirty_minutes :
  let active :=
    snd (fromLatestRender activateEmergencyDefense (device 0) initial) in
  let locked :=
    snd (fromLatestRender disableForFalseAlarm (device 1000) active) in
  let later :=
    intervalFiresAt (device 1000) (every_minute_from 1000 31) locked in
  let attempt :=
    fromLatestRender activateEmergencyDefense (device 1861000) later in
  isActive (defenseState active) = true
  /\ isActive (defenseState locked) = false
  /\ brightness locked = 0.8
  /\ falseAlarmDisabledUntil (defenseState locked) = Some 1801000%Z
  /\ falseAlarmDisabled (defenseState later) = true
  /\ fst attempt = false
  /\ isActive (defenseState (snd attempt)) = false
  /\ last (alerts (snd attempt)) DefenseDeactivatedAlert
     = DefenseDisabledAlert (-1).
Proof.
  cbv zeta.
  destruct sample_activation as (_ & Hact & Horig & _ & Hnone).
  set (active :=
         snd (fromLatestRender activateEmergencyDefense (device 0) initial))
    in *.
  destruct (lock_engages (device 1000) active)
    as (_ & Hoff & _ & _ & Hon & Huntil & Hbright & _).
  destruct (lock_never_clears (device 1000) (every_minute_from 1000 31)
              active Hnone) as [-> _].
  set (locked :=
         snd (fromLatestRender disableForFalseAlarm (device 1000) active))
    in *.
  pose proof (locked_activation_fails (device 1861000) locked Hon) as H.
  cbv zeta in H. destruct H as (H1 & H2 & _ & H4).
  split; [exact Hact|]. split; [exact Hoff|].
  split.
  { rewrite (Hbright Hact eq_refl eq_refl), Horig. unfold or_default.
    destruct (Req_dec_T 0.8 0); [lra | reflexivity]. }
  split; [exact Huntil|]. split; [exact Hon|]. split; [exact H1|].
  split; [now rewrite H2|].
  rewrite H4, Huntil. reflexivity.
Qed.

(** The check itself is sound: run with the expiry of the lock in hand, it
    lifts the lock once the expiry is reached. *)
Lemma check_lifts_expired_lock until env w :
  (until <= now env)%Z ->
  let w' := checkFalseAlarmStatus (Some until) env w in
  falseAlarmDisabled (defenseState w') = false
  /\ falseAlarmDisabledUntil (defenseState w') = None
  /\ falseAlarmCheckInterval w' = None.
Proof.
  intros H. unfold checkFalseAlarmStatus.
  apply Z.leb_le in H. rewrite H. repeat split; reflexivity.
Qed.

End DefenseProofs.

(** * Further properties *)

(** ** The detector, beyond the single event *)

Module DetectorMore.
Import Detector Scenario DetectorProofs.

(** What a tick does to the peak and to the event buffer while the event
    goes on. *)
Lemma detect_continue_cells s t :
  isInEvent s = true -> aboveThreshold t = true ->
  peakAcceleration (fst (detectEarthquake s t))
  = Rmax (peakAcceleration s) (accelMagnitude t)
  /\ eventIntensityBuffer (fst (detectEarthquake s t))
     = push_capped INTENSITY_BUFFER_SIZE (eventIntensityBuffer s) (ci t).
Proof.
  intros Hi Hs. open_tick s t Hi.
  repeat first [rewrite Hi | rewrite andb_false_r | progress cbn].
  crunch. rewrite Hs. cbn.
  assert (Hmax : (if Rltb (peakAcceleration s) (accelMagnitude t)
                  then accelMagnitude t else peakAcceleration s)
                 = Rmax (peakAcceleration s) (accelMagnitude t)).
  { unfold Rmax.
    destruct (Rltb (peakAcceleration s) (accelMagnitude t)) eqn:E;
      [apply Rltb_true_iff in E | apply Rltb_false_iff in E];
      destruct (Rle_dec _ _); lra. }
  rewrite <- Hmax.
  destruct (activateEmergencyDefense t) as [[|]|],
      (defenseActivationAttempted s) eqn:Ea; cbn;
    try destruct (Rltb EMERGENCY_DEFENSE_THRESHOLD _); cbn; rewrite ?Hi; cbn;
    destruct (Rltb (peakAcceleration s) (accelMagnitude t)); cbn;
    split; reflexivity.
Qed.


(** From a state inside an event, over ticks that stay above the threshold:
    the peak is the running maximum, the event buffer the last twenty
    intensities, and the captured location and detection time stay put. *)
Lemma run_sustained_cells mids : forall s pre,
  isInEvent s = true ->
  Forall (fun t => aboveThreshold t = true) mids ->
  eventIntensityBuffer s = lastn 20 pre ->
  peakAcceleration (fst (run s mids))
  = fold_left Rmax (map accelMagnitude mids) (peakAcceleration s)
  /\ eventIntensityBuffer (fst (run s mids)) = lastn 20 (pre ++ map ci mids)
  /\ currentEventLocation (fst (run s mids)) = currentEventLocation s
  /\ lastDetectionTime (fst (run s mids)) = lastDetectionTime s.
Proof.
  induction mids as [|t mids IH]; intros s pre Hin Hall Hbuf.
  - cbn. rewrite app_nil_r. auto.
  - inversion Hall as [|? ? Ht Hrest]; subst.
    destruct (detect_continue s t Hin Ht) as (Hi & _ & Hl & Hloc & _).
    destruct (detect_continue_cells s t Hin Ht) as (Hpeak & Hb).
    rewrite run_cons. cbn [fst map fold_left].
    destruct (IH (fst (detectEarthquake s t)) (pre ++ [ci t]) Hi Hrest)
      as (H1 & H2 & H3 & H4).
    { rewrite Hb. unfold INTENSITY_BUFFER_SIZE.
      rewrite push_capped_lastn by (rewrite Hbuf; apply lastn_length).
      rewrite Hbuf, lastn_app, lastn_lastn by lia.
      now rewrite <- lastn_app. }
    rewrite H1, H2, H3, H4, Hpeak, Hl, Hloc, <- app_assoc. auto.
Qed.

(** The state in which an event stands just before the tick that ends it. *)
Lemma event_run_shape s0 t0 mids :
  isInEvent s0 = false -> detects s0 t0 = true ->
  Forall (fun t => aboveThreshold t = true) mids ->
  let s2 := fst (run s0 (t0 :: mids)) in
  isInEvent s2 = true
  /\ eventStartTime s2 = now t0
  /\ lastDetectionTime s2 = now t0
  /\ peakAcceleration s2
     = fold_left Rmax (map accelMagnitude mids) (accelMagnitude t0)
  /\ eventIntensityBuffer s2 = lastn 20 (map ci (t0 :: mids))
  /\ currentEventLocation s2
     = match capturedLocation t0 with
       | Some l => Some l
       | None => currentEventLocation s0
       end.
Proof.
  intros Hidle Hstart Hmids s2.
  destruct (detect_start s0 t0 Hidle Hstart)
    as (Hi1 & Hst1 & Hl1 & Hb1 & Hp1 & Hloc1 & _).
  destruct (run_sustained mids _ Hi1 Hmids) as (Hi2 & Hst2 & _).
  destruct (run_sustained_cells mids _ [ci t0] Hi1 Hmids)
    as (Hp2 & Hb2 & Hloc2 & Hl2); [now rewrite Hb1|].
  unfold s2. rewrite run_cons. cbn [fst].
  rewrite Hst2, Hp2, Hb2, Hloc2, Hl2, Hst1, Hl1, Hp1, Hloc1. auto 7.
Qed.

(** The records of a whole event, read off its last tick. *)
Lemma event_run_records s0 t0 mids tend :
  isInEvent s0 = false -> detects s0 t0 = true ->
  Forall (fun t => aboveThreshold t = true) mids ->
  aboveThreshold tend = false ->
  let s2 := fst (run s0 (t0 :: mids)) in
  records (snd (run s0 (t0 :: mids ++ [tend])))
  = if Rleb 2 (IZR (now tend - now t0) / 1000)
    then [AddEarthquakeEvent (finalized s2 tend);
          SaveEarthquakeToDatabase (finalized s2 tend)
            (currentEventLocation s2)]
    else [].
Proof.
  intros Hidle Hstart Hmids Hend s2.
  destruct (event_run_shape s0 t0 mids Hidle Hstart Hmids)
    as (Hi2 & Hst2 & _). fold s2 in Hi2, Hst2.
  destruct (detect_start s0 t0 Hidle Hstart)
    as (Hi1 & _ & _ & _ & _ & _ & _ & Heff1).
  destruct (run_sustained mids _ Hi1 Hmids) as (_ & _ & Hrec2 & _).
  destruct (detect_end s2 tend Hi2 Hend) as (_ & _ & Heff3).
  assert (Hs2 : s2 = fst (run (fst (detectEarthquake s0 t0)) mids))
    by (unfold s2; rewrite run_cons; reflexivity).
  rewrite run_cons, run_app, run_one. cbn [fst snd]. rewrite <- Hs2.
  rewrite !records_app, Hrec2, Heff1, Heff3, !records_app, records_activates.
  rewrite Hst2.
  destruct (activateEmergencyDefense t0); [destruct (Rltb _ (ci t0))|];
    destruct (Rleb 2 (IZR (now tend - now t0) / 1000)); reflexivity.
Qed.


(** The intensity of a finalized record is the mean of the last twenty
    combined intensities of the event (of all of them when there are fewer),
    the sample of the tick that ends the event included. *)
Theorem finalized_intensity_is_mean_of_last_twenty :
  forall (s0 : State) (t0 : Tick) (mids : list Tick) (tend : Tick),
    isInEvent s0 = false -> detects s0 t0 = true ->
    Forall (fun t => aboveThreshold t = true) mids ->
    aboveThreshold tend = false ->
    2 <= IZR (now tend - now t0) / 1000 ->
    exists e loc,
      records (snd (run s0 (t0 :: mids ++ [tend])))
      = [AddEarthquakeEvent e; SaveEarthquakeToDatabase e loc]
      /\ intensity e = mean (lastn 20 (map ci (t0 :: mids ++ [tend]))).
Proof.
  intros s0 t0 mids tend Hidle Hstart Hmids Hend Hlong.
  rewrite (event_run_records s0 t0 mids tend Hidle Hstart Hmids Hend).
  apply Rleb_true_iff in Hlong. rewrite Hlong.
  destruct (event_run_shape s0 t0 mids Hidle Hstart Hmids)
    as (_ & _ & _ & _ & Hbuf & _).
  eexists _, _. split; [reflexivity|]. cbn [intensity finalized].
  rewrite Hbuf. unfold INTENSITY_BUFFER_SIZE.
  rewrite push_capped_lastn by apply lastn_length.
  rewrite lastn_app, lastn_lastn, <- lastn_app by lia.
  change (map ci (t0 :: mids) ++ [ci tend])
    with (map ci (t0 :: mids) ++ map ci [tend]).
  now rewrite <- map_app.
Qed.



(** *** A sample event with a stronger second reading *)

Lemma strong_above nw : aboveThreshold (tick nw 14) = true.
Proof. apply Rltb_true_iff. Rsolve. Qed.


Lemma finalized_intensity_sample :
  exists e loc,
    records (snd (run initial
                    (shaking 20000 :: [tick 21000 14] ++ [still 22500])))
    = [AddEarthquakeEvent e; SaveEarthquakeToDatabase e loc]
    /\ intensity e
       = mean (lastn 20 (map ci (shaking 20000
                                 :: [tick 21000 14] ++ [still 22500]))).
Proof.
  apply (finalized_intensity_is_mean_of_last_twenty initial (shaking 20000)
           [tick 21000 14] (still 22500) eq_refl shaking_starts
           (Forall_cons _ (strong_above 21000) (Forall_nil _))
           (still_below 22500)).
  cbn. lra.
Defined.


(** *** Between events *)



(** The detection window never holds more than ten samples, and after
    any number of ticks from start-up it holds exactly the intensities of
    the last ten ticks, oldest first (all of them while there are fewer). *)
Theorem detection_window_invariant :
  forall ts : list Tick,
    (List.length (detectionBuffer (fst (run initial ts))) <= 10)%nat
    /\ detectionBuffer (fst (run initial ts)) = lastn 10 (map ci ts)
    /\ List.length (detectionBuffer (fst (run initial ts)))
       = Nat.min 10 (List.length ts).
Proof.
  intros ts. rewrite detection_window_is_last_ten.
  split; [apply lastn_length|]. split; [reflexivity|].
  unfold lastn. rewrite length_skipn, length_map. lia.
Qed.

(** *** The history store *)

Lemma storeHistory_bound effs : forall history,
  (List.length history <= 100)%nat ->
  (List.length (storeHistory effs history) <= 100)%nat.
Proof.
  induction effs as [|e effs IH]; intros history Hlen; cbn [storeHistory];
    [exact Hlen|].
  destruct e; auto. apply IH. apply (firstn_le_length 100).
Qed.

(** The history store puts a new event in front and keeps at most 100
    entries: whatever the detector emits over a run, a history that held at
    most 100 events still does, and when the store is full the event dropped
    is the oldest one. *)
Theorem history_is_capped_newest_first :
  forall (event : EarthquakeEvent) (prev : list EarthquakeEvent),
    addEarthquakeEvent event prev = event :: firstn 99 prev
    /\ List.length (addEarthquakeEvent event prev)
       = Nat.min 100 (S (List.length prev))
    /\ (forall (s : State) (ts : list Tick),
          (List.length prev <= 100)%nat ->
          (List.length (storeHistory (snd (run s ts)) prev) <= 100)%nat).
Proof.
  intros event prev. split; [reflexivity|]. split.
  - unfold addEarthquakeEvent. rewrite length_firstn. reflexivity.
  - intros s ts. apply storeHistory_bound.
Qed.

Lemma filter_index_spec prev : forall i index,
  filter_index i index prev
  = if ((i <=? index) && (index <? i + Z.of_nat (List.length prev)))%Z
    then firstn (Z.to_nat (index - i)) prev
         ++ skipn (S (Z.to_nat (index - i))) prev
    else prev.
Proof.
  induction prev as [|e prev IH]; intros i index.
  - cbn. destruct (_ && _); [|reflexivity].
    now rewrite firstn_nil.
  - cbn [filter_index]. rewrite IH. cbn [List.length].
    rewrite Nat2Z.inj_succ.
    destruct (Z.eqb_spec i index) as [Heq|Hne];
      destruct (Z.leb_spec (i + 1) index), (Z.leb_spec i index),
        (Z.ltb_spec index (i + 1 + Z.of_nat (List.length prev))),
        (Z.ltb_spec index (i + Z.succ (Z.of_nat (List.length prev))));
      cbn [andb]; try lia; subst; rewrite ?Z.sub_diag; try reflexivity.
    replace (Z.to_nat (index - i)) with (S (Z.to_nat (index - (i + 1))))
      by lia.
    reflexivity.
Qed.

(** Removing the event at a position of the history takes out that entry
    and nothing else; a position outside the history (negative, or at or
    past its length) leaves the history as it is.  Removing position 0 right
    after an event was stored gives back the earlier history, except that a
    history that was full has lost its oldest entry. *)
Theorem remove_event_by_position :
  forall (index : Z) (prev : list EarthquakeEvent),
    ((0 <= index < Z.of_nat (List.length prev))%Z ->
       removeEvent index prev
       = firstn (Z.to_nat index) prev ++ skipn (S (Z.to_nat index)) prev
       /\ S (List.length (removeEvent index prev)) = List.length prev)
    /\ ((index < 0 \/ Z.of_nat (List.length prev) <= index)%Z ->
          removeEvent index prev = prev)
    /\ (forall event,
          removeEvent 0 (addEarthquakeEvent event prev) = firstn 99 prev).
Proof.
  intros index prev. unfold removeEvent. split; [|split].
  - intros [H0 Hlt]. rewrite filter_index_spec, Z.sub_0_r, Z.add_0_l.
    destruct (Z.leb_spec 0 index),
      (Z.ltb_spec index (Z.of_nat (List.length prev)));
      try lia.
    cbn [andb]. split; [reflexivity|].
    rewrite length_app, length_firstn, length_skipn. lia.
  - intros Hout. rewrite filter_index_spec, Z.sub_0_r, Z.add_0_l.
    destruct (Z.leb_spec 0 index),
      (Z.ltb_spec index (Z.of_nat (List.length prev)));
      try lia; reflexivity.
  - intros event. unfold addEarthquakeEvent.
    change (firstn 100 (event :: prev)) with (event :: firstn 99 prev).
    cbn [filter_index Z.eqb]. now rewrite filter_index_spec.
Qed.

End DetectorMore.

(** ** The warning engine, beyond the claims *)

Module GeoMore.
Import Geo Scenario GeoProofs.

(** *** The range of the haversine distance *)







(** *** Particular distances *)

Lemma hav_same_point lat lon : hav lat lon lat lon = 0.
Proof.
  unfold hav, toRadians.
  replace ((lat - lat) * (PI / 180) / 2) with 0 by field.
  replace ((lon - lon) * (PI / 180) / 2) with 0 by field.
  rewrite sin_0. ring.
Qed.

(** A point is at distance 0 from itself, wherever it is; so a user whose
    latest location is the epicenter itself never gets a warning. *)
Theorem no_warning_at_the_epicenter :
  forall (lat lon magnitude : R) (q : QueryResult),
    calculateHaversineDistance lat lon lat lon = 0
    /\ (forall u, In u (getRecentUserLocations q) ->
          latitude u = lat -> longitude u = lon ->
          forall w, In w (calculateWarningsForUsers lat lon magnitude q) ->
                    warned_user_id w <> user_id u).
Proof.
  intros lat lon magnitude q.
  assert (H0 : calculateHaversineDistance lat lon lat lon = 0).
  { rewrite haversine_unfold, hav_same_point, Rminus_0_r, sqrt_0, sqrt_1,
      atan2_0_pos by lra. ring. }
  split; [exact H0|].
  intros u Hu Hlat Hlon w Hw Hid.
  apply in_warnings in Hw. destruct Hw as (u' & Hu' & Hw).
  apply warningFor_Some in Hw. destruct Hw as (Hd & Hid' & _).
  assert (u' = u).
  { apply (NoDup_map_inj user_id (getRecentUserLocations q)); auto.
    - apply candidates_distinct.
    - congruence. }
  subst u'. rewrite Hlat, Hlon, H0 in Hd. lra.
Qed.

Lemma atan2_sin_cos y : 0 <= y <= PI / 2 -> atan2 (sin y) (cos y) = y.
Proof.
  intros [Hy0 Hy2]. pose proof PI_RGT_0 as Hpi.
  destruct (Req_dec y (PI / 2)) as [->|Hne].
  - rewrite sin_PI2, cos_PI2. apply atan2_pos_0. lra.
  - assert (Hc : 0 < cos y) by (apply cos_gt_0; lra).
    unfold atan2. apply Rltb_true_iff in Hc. rewrite Hc.
    change (sin y / cos y) with (tan y). apply atan_tan. lra.
Qed.

(** Along a meridian the distance is proportional to the difference of the
    latitudes, 6371 * pi / 180 km for each degree, as long as the two
    latitudes are at most 180 degrees apart. *)
Theorem haversine_along_a_meridian :
  forall lat1 lat2 lon : R,
    Rabs (lat2 - lat1) <= 180 ->
    calculateHaversineDistance lat1 lon lat2 lon
    = 6371 * (PI / 180) * Rabs (lat2 - lat1).
Proof.
  intros lat1 lat2 lon Hd. pose proof PI_RGT_0 as Hpi.
  set (y := Rabs (toRadians (lat2 - lat1) / 2)).
  assert (Hy : y = PI / 180 * Rabs (lat2 - lat1) / 2).
  { unfold y, toRadians.
    replace ((lat2 - lat1) * (PI / 180) / 2)
      with ((lat2 - lat1) * (PI / 360)) by field.
    rewrite Rabs_mult, (Rabs_pos_eq (PI / 360)) by lra. field. }
  assert (Hrange : 0 <= y <= PI / 2).
  { split; [apply Rabs_pos|]. rewrite Hy.
    pose proof (Rabs_pos (lat2 - lat1)). nra. }
  assert (Hhav : hav lat1 lon lat2 lon = sin y * sin y).
  { unfold hav.
    replace (toRadians (lon - lon) / 2) with 0
      by (unfold toRadians; field).
    rewrite sin_0, !Rmult_0_r, Rplus_0_r. unfold y, Rabs.
    destruct (Rcase_abs _); [rewrite sin_neg; ring | reflexivity]. }
  rewrite haversine_unfold, Hhav.
  assert (Hs : 0 <= sin y) by (apply sin_ge_0; lra).
  assert (Hc : 0 <= cos y) by (apply cos_ge_0; lra).
  rewrite sqrt_square by exact Hs.
  replace (1 - sin y * sin y) with (cos y * cos y)
    by (pose proof (sin2_cos2 y) as H; unfold Rsqr in H; lra).
  rewrite sqrt_square by exact Hc.
  rewrite atan2_sin_cos by exact Hrange. rewrite Hy. field.
Qed.

(** From (40.0, -74.0) to (40.09, -74.0): 0.09 degrees of latitude. *)
Lemma haversine_meridian_sample :
  calculateHaversineDistance 40 (-74) 40.09 (-74)
  = 6371 * (PI / 180) * Rabs (40.09 - 40).
Proof.
  apply haversine_along_a_meridian.
  unfold Rabs. destruct (Rcase_abs _); lra.
Defined.



(** *** The directory of candidates *)

Lemma mostRecentPerUser_first rows : forall seen u,
  In u (mostRecentPerUser seen rows) <->
  ~ In (user_id u) seen
  /\ find (fun r => String.eqb (user_id r) (user_id u)) rows = Some u.
Proof.
  induction rows as [|r rows IH]; intros seen u; cbn.
  - split; [contradiction | intros [_ H]; discriminate].
  - destruct (existsb (String.eqb (user_id r)) seen) eqn:E.
    + rewrite IH. apply existsb_exists in E. destruct E as (x & Hx & Hxe).
      apply String.eqb_eq in Hxe. subst x.
      destruct (String.eqb_spec (user_id r) (user_id u)) as [Heq|Hne].
      * split; [intros [Hn _] | intros [Hn _]]; exfalso; apply Hn; congruence.
      * reflexivity.
    + assert (Hr : ~ In (user_id r) seen).
      { intros Hc. assert (existsb (String.eqb (user_id r)) seen = true);
          [|congruence].
        apply existsb_exists. exists (user_id r). split; auto.
        apply String.eqb_refl. }
      cbn. rewrite IH. cbn.
      destruct (String.eqb_spec (user_id r) (user_id u)) as [Heq|Hne].
      * split.
        -- intros [->|[Hn _]]; [auto | exfalso; apply Hn; now left].
        -- intros [_ [= ->]]. now left.
      * split.
        -- intros [->|[Hn Hf]]; [congruence|]. split; auto.
        -- intros [Hn Hf]. right. split; [|exact Hf].
           intros [Hc|Hc]; [congruence | auto].
Qed.

(** The directory keeps one row for each user: the first row of that user
    in the answer of the query (the newest, as the query orders them).  Every
    user with a row in the answer is in the directory, no user is in it
    twice, and a failed query gives an empty directory. *)
Theorem directory_keeps_newest_row_per_user :
  forall rows : list UserLocation,
    (forall u,
        In u (getRecentUserLocations (QueryData rows)) <->
        find (fun r => String.eqb (user_id r) (user_id u)) rows = Some u)
    /\ NoDup (map user_id (getRecentUserLocations (QueryData rows)))
    /\ (forall r, In r rows ->
          In (user_id r)
             (map user_id (getRecentUserLocations (QueryData rows))))
    /\ getRecentUserLocations QueryError = [].
Proof.
  intros rows.
  assert (H : forall u,
             In u (getRecentUserLocations (QueryData rows)) <->
             find (fun r => String.eqb (user_id r) (user_id u)) rows = Some u).
  { intros u. cbn. rewrite mostRecentPerUser_first. cbn. tauto. }
  split; [exact H|]. split; [apply candidates_distinct|].
  split; [|reflexivity].
  intros r Hr.
  destruct (find (fun x => String.eqb (user_id x) (user_id r)) rows)
    as [u|] eqn:Hf.
  - apply find_some in Hf as Hu. destruct Hu as [_ Hid].
    apply String.eqb_eq in Hid.
    apply in_map_iff. exists u. split; [exact Hid|].
    apply H. rewrite Hid. exact Hf.
  - apply (find_none _ _ Hf) in Hr. rewrite String.eqb_refl in Hr.
    discriminate.
Qed.

Lemma pushed_user lat lon u w :
  In w (pushed lat lon u) -> warned_user_id w = user_id u.
Proof.
  unfold pushed. destruct (warningFor lat lon u) eqn:Hw; [|contradiction].
  intros [<-|[]]. apply warningFor_Some in Hw. tauto.
Qed.

Lemma pushed_users_distinct lat lon l :
  NoDup (map user_id l) ->
  NoDup (map warned_user_id (flat_map (pushed lat lon) l)).
Proof.
  induction l as [|u l IH]; cbn; intros Hn; [constructor|].
  inversion Hn as [|? ? Hu Hl]; subst. rewrite map_app.
  assert (Hone : forall w, In w (pushed lat lon u) -> pushed lat lon u = [w]).
  { unfold pushed. destruct (warningFor lat lon u) as [w0|];
      [|contradiction].
    intros w1 [<-|[]]. reflexivity. }
  destruct (pushed lat lon u) as [|w ws] eqn:Hp; [apply IH, Hl|].
  rewrite (Hone w (or_introl eq_refl)). cbn. constructor; [|apply IH, Hl].
  intros Hc. apply in_map_iff in Hc. destruct Hc as (w' & Hid & Hw').
  apply in_flat_map in Hw'. destruct Hw' as (u' & Hu' & Hw').
  apply pushed_user in Hw'. apply Hu. apply in_map_iff. exists u'.
  split; [|exact Hu'].
  assert (In w (pushed lat lon u)) by (rewrite Hp; now left).
  apply pushed_user in H. congruence.
Qed.

(** No user is warned twice: the user ids of the returned warnings are
    pairwise distinct.  There are as many warnings as there are users of
    the directory at 1 km or more, and none when the query failed. *)
Theorem at_most_one_warning_per_user :
  forall (epicenterLat epicenterLon magnitude : R) (q : QueryResult),
    let warnings :=
      calculateWarningsForUsers epicenterLat epicenterLon magnitude q in
    NoDup (map warned_user_id warnings)
    /\ List.length warnings
       = List.length
           (filter
              (fun u =>
                 negb (Rltb (calculateHaversineDistance epicenterLat
                               epicenterLon (latitude u) (longitude u)) 1))
              (getRecentUserLocations q))
    /\ (List.length warnings <= List.length (getRecentUserLocations q))%nat
    /\ calculateWarningsForUsers epicenterLat epicenterLon magnitude
         QueryError = [].
Proof.
  intros lat lon mag q warnings.
  pose proof (warnings_perm lat lon mag q) as Hp. fold warnings in Hp.
  assert (Hlen : forall l,
             List.length (flat_map (pushed lat lon) l)
             = List.length
                 (filter
                    (fun u =>
                       negb (Rltb (calculateHaversineDistance lat lon
                                     (latitude u) (longitude u)) 1)) l)).
  { induction l as [|u l IH]; [reflexivity|]. cbn [flat_map filter].
    rewrite length_app, IH. unfold pushed, warningFor. cbv zeta.
    destruct (Rltb _ 1); reflexivity. }
  split; [|split; [|split]].
  - eapply Permutation_NoDup;
      [apply Permutation_map, Permutation_sym, Hp|].
    apply pushed_users_distinct, candidates_distinct.
  - rewrite (Permutation_length Hp). apply Hlen.
  - rewrite (Permutation_length Hp), Hlen. apply filter_length_le.
  - reflexivity.
Qed.

End GeoMore.

(** ** More on the defense mode controller *)

Module DefenseMore.
Import Defense Scenario DefenseProofs.

Ltac split_Rltb :=
  repeat (match goal with
          | |- context [Rltb ?a ?b] => destruct (Rltb a b) eqn:?
          end; cbn).

Lemma or_default_nonzero b d : b <> 0 -> or_default (Some b) d = b.
Proof. intros H. unfold or_default. now destruct (Req_dec_T b 0). Qed.

Lemma or_default_zero d : or_default (Some 0) d = d.
Proof. unfold or_default. destruct (Req_dec_T 0 0); [reflexivity | lra]. Qed.

Lemma mounted_is_initial_after_mount :
  mounted = initializeBrightnessState (defenseState initial) (device 0) initial.
Proof.
  unfold initializeBrightnessState, mounted. cbn.
  replace (Rltb 0.8 0.3) with false by (symmetry; apply Rltb_false_iff; lra).
  reflexivity.
Qed.

Lemma device_is_a_phone nw : phone (device nw).
Proof. repeat split. Qed.

Lemma mounted_is_idle : idle mounted.
Proof. split; reflexivity. Qed.

(** Activation on an idle phone: the level read is remembered, and the
    screen goes to 0.1 unless it was at 0.2 or below already. *)
Lemma activation_on_a_phone env w :
  phone env -> idle w ->
  let active := snd (fromLatestRender activateEmergencyDefense env w) in
  originalBrightness (defenseState active) = Some (brightness w)
  /\ brightness active = (if Rltb 0.2 (brightness w) then 0.1 else brightness w)
  /\ isActive (defenseState active) = true
  /\ brightnessRestored (defenseState active) = false
  /\ idle active.
Proof.
  intros (Hp & Hr & Hw) (Hi & Hl).
  unfold fromLatestRender, activateEmergencyDefense, idle.
  rewrite Hi, Hl, Hp, Hr, Hw. cbn.
  destruct (Rltb 0.2 (brightness w)); cbn;
    destruct (location env), (insert_ok env); cbn; rewrite ?Hi, ?Hl;
    repeat split; auto.
Qed.

(** Round trip on a phone: defense mode switched on and off again
    leaves the screen at the level it had before, whatever that level was,
    except that a screen at exactly 0 comes back at 0.8 (the stored level
    0 is taken for a missing one). *)
Theorem activation_then_deactivation_restores_the_screen :
  forall (env env' : Env) (w : World),
    phone env -> phone env' -> idle w ->
    let active := snd (fromLatestRender activateEmergencyDefense env w) in
    let back := snd (fromLatestRender deactivateEmergencyDefense env' active) in
    (0.2 < brightness w -> brightness active = 0.1)
    /\ (brightness w <> 0 -> brightness back = brightness w)
    /\ (brightness w = 0 -> brightness back = 0.8)
    /\ isActive (defenseState back) = false
    /\ originalBrightness (defenseState back) = None.
Proof.
  intros env env' w He He' Hw active back.
  destruct (activation_on_a_phone env w He Hw) as (Ho & Hb & _).
  fold active in Ho, Hb.
  destruct He' as (Hp' & _ & Hw').
  assert (Hback : brightness back = or_default (Some (brightness w)) 0.8).
  { unfold back, fromLatestRender. rewrite deactivate_device by assumption.
    now rewrite Ho. }
  split.
  { intros H. apply Rltb_true_iff in H. now rewrite Hb, H. }
  split.
  { intros H. now rewrite Hback, or_default_nonzero. }
  split.
  { intros H. rewrite Hback, H. apply or_default_zero. }
  unfold back, fromLatestRender, deactivateEmergencyDefense.
  rewrite Hp', Hw'. split; reflexivity.
Qed.

Lemma screen_round_trip_sample :
  brightness
    (snd (fromLatestRender deactivateEmergencyDefense (device 5000)
            (snd (fromLatestRender activateEmergencyDefense (device 0)
                    mounted))))
  = 0.8.
Proof.
  destruct (activation_then_deactivation_restores_the_screen
              (device 0) (device 5000) mounted
              (device_is_a_phone 0) (device_is_a_phone 5000) mounted_is_idle)
    as (_ & H & _).
  rewrite H; cbn; [reflexivity | lra].
Defined.

(** Activation while defense mode is already on reads the dimmed
    screen and stores that as the level to return to: after two activations
    in a row on a phone whose screen was above 0.2, deactivation leaves the
    screen at 0.1. *)
Theorem second_activation_forgets_the_original_brightness :
  forall (env1 env2 env3 : Env) (w : World),
    phone env1 -> phone env2 -> phone env3 -> idle w ->
    0.2 < brightness w ->
    let once := snd (fromLatestRender activateEmergencyDefense env1 w) in
    let twice := snd (fromLatestRender activateEmergencyDefense env2 once) in
    let back := snd (fromLatestRender deactivateEmergencyDefense env3 twice) in
    originalBrightness (defenseState once) = Some (brightness w)
    /\ originalBrightness (defenseState twice) = Some 0.1
    /\ brightness back = 0.1
    /\ isActive (defenseState back) = false.
Proof.
  intros env1 env2 env3 w H1 H2 H3 Hw Hb once twice back.
  destruct (activation_on_a_phone env1 w H1 Hw) as (Ho & Hb1 & _ & _ & Hidle).
  fold once in Ho, Hb1, Hidle.
  apply Rltb_true_iff in Hb. rewrite Hb in Hb1.
  destruct (activation_on_a_phone env2 once H2 Hidle) as (Ho2 & Hb2 & _).
  fold twice in Ho2, Hb2. rewrite Hb1 in Ho2.
  destruct H3 as (Hp3 & _ & Hw3).
  split; [exact Ho|]. split; [exact Ho2|].
  split.
  - unfold back, fromLatestRender. rewrite deactivate_device by assumption.
    rewrite Ho2. apply or_default_nonzero. lra.
  - unfold back, fromLatestRender, deactivateEmergencyDefense.
    rewrite Hp3, Hw3. reflexivity.
Qed.

Lemma second_activation_sample :
  brightness
    (snd (fromLatestRender deactivateEmergencyDefense (device 9000)
            (snd (fromLatestRender activateEmergencyDefense (device 5000)
                    (snd (fromLatestRender activateEmergencyDefense (device 0)
                            mounted))))))
  = 0.1.
Proof.
  apply (second_activation_forgets_the_original_brightness
           (device 0) (device 5000) (device 9000) mounted
           (device_is_a_phone 0) (device_is_a_phone 5000)
           (device_is_a_phone 9000) mounted_is_idle).
  cbn. lra.
Defined.

(** Restoring the brightness during defense mode: on a phone whose
    screen was above 0.2, [restoreBrightness] brings the screen back to the
    level it had before activation, [emergencyBrightnessRestore] sets it to
    0.8 whatever it was; either way defense mode stays on, the status no
    longer reports a reduced brightness, and a later deactivation still
    returns to the level before activation. *)
Theorem brightness_restored_while_defense_stays_active :
  forall (env env' : Env) (w : World),
    phone env -> phone env' -> idle w -> 0.2 < brightness w ->
    let active := snd (fromLatestRender activateEmergencyDefense env w) in
    let restore := fromLatestRender restoreBrightness env' active in
    let restored := snd restore in
    let emergency := fromLatestRender emergencyBrightnessRestore env' active in
    brightness active = 0.1
    /\ brightnessReduced (getDefenseStatus (defenseState active) env') = true
    /\ fst restore = (true, [BrightnessRestoredAlert])
    /\ brightness restored = brightness w
    /\ isActive (defenseState restored) = true
    /\ brightnessReduced (getDefenseStatus (defenseState restored) env') = false
    /\ fst emergency = true
    /\ brightness (snd emergency) = 0.8
    /\ isActive (defenseState (snd emergency)) = true
    /\ brightnessReduced
         (getDefenseStatus (defenseState (snd emergency)) env') = false
    /\ brightness
         (snd (fromLatestRender deactivateEmergencyDefense env' restored))
       = brightness w.
Proof.
  intros env env' w He He' Hw Hb active restore restored emergency.
  destruct (activation_on_a_phone env w He Hw) as (Ho & Hb1 & Ha & Hr & _).
  fold active in Ho, Hb1, Ha, Hr.
  pose proof Hb as Hb'. apply Rltb_true_iff in Hb'. rewrite Hb' in Hb1.
  destruct He' as (Hp' & _ & Hw').
  assert (Hd : or_default (Some (brightness w)) 0.8 = brightness w)
    by (apply or_default_nonzero; lra).
  unfold restored, restore, emergency, fromLatestRender, restoreBrightness,
    emergencyBrightnessRestore, getDefenseStatus, deactivateEmergencyDefense.
  rewrite Hp', Hw', Ho, Hr, Ha, Hd. cbn. rewrite Ho, Ha, Hd.
  repeat split; auto.
Qed.

Lemma brightness_restored_sample :
  brightness
    (snd (fromLatestRender restoreBrightness (device 5000)
            (snd (fromLatestRender activateEmergencyDefense (device 0)
                    mounted))))
  = 0.8.
Proof.
  destruct (brightness_restored_while_defense_stays_active
              (device 0) (device 5000) mounted
              (device_is_a_phone 0) (device_is_a_phone 5000) mounted_is_idle)
    as (_ & _ & _ & H & _); [cbn; lra | exact H].
Defined.

(** What the status says about the brightness after an activation
    that was not refused: [brightnessReduced] is reported exactly when the
    platform is a phone whose brightness could be read.  In a browser it is
    never reported, although the page is dimmed and the dialog lists the
    brightness among the successful measures; on a phone it is reported
    also when the write failed. *)
Theorem brightness_reduced_status_after_activation :
  forall (snap : EmergencyDefenseState) (env env' : Env) (w : World),
    falseAlarmDisabled snap = false ->
    let out := activateEmergencyDefense snap env w in
    brightnessReduced (getDefenseStatus (defenseState (snd out)) env')
    = match platform env with
      | Native => brightness_read_ok env
      | Web => false
      end
    /\ (platform env = Web -> dom_ok env = true ->
        cssFilter (snd out) = Some 0.3
        /\ cssAnimationsPaused (snd out) = true
        /\ exists sent,
             last (alerts (snd out)) DefenseDeactivatedAlert
             = DefenseActivatedAlert true true sent).
Proof.
  intros snap env env' w Hl.
  unfold activateEmergencyDefense, initializeBrightnessState,
    getDefenseStatus, alert.
  rewrite Hl.
  destruct (isInitialized snap), (initializationAttempted w),
    (platform env), (brightness_read_ok env), (brightness_write_ok env),
    (dom_ok env); cbn; split_Rltb;
    destruct (location env), (insert_ok env); cbn;
    (split; [reflexivity | intros; try discriminate]);
    rewrite ?last_last; repeat split; eauto.
Qed.

Lemma brightness_reduced_status_sample :
  brightnessReduced
    (getDefenseStatus
       (defenseState
          (snd (activateEmergencyDefense (defenseState mounted) (browser 0)
                  mounted)))
       (browser 1000))
  = false.
Proof.
  apply (brightness_reduced_status_after_activation
           (defenseState mounted) (browser 0) (browser 1000) mounted).
  reflexivity.
Defined.

(** The position is transmitted by an activation that is not
    refused, once, when a fix is available and the insert reports no
    error; [locationSent] says whether that happened.  A refused activation
    transmits nothing, and neither do deactivation, the two brightness
    restores, the false-alarm lock, the initialization or the interval. *)
Theorem location_is_sent_only_by_an_accepted_activation :
  forall (snap : EmergencyDefenseState) (env : Env) (w : World),
    let out := activateEmergencyDefense snap env w in
    sentLocations (snd out)
    = sentLocations w
      ++ (if falseAlarmDisabled snap then []
          else match location env with
               | Some loc => if insert_ok env then [loc] else []
               | None => []
               end)
    /\ (falseAlarmDisabled snap = false ->
        locationSent (defenseState (snd out))
        = match location env with
          | Some _ => insert_ok env
          | None => false
          end)
    /\ sentLocations (snd (deactivateEmergencyDefense snap env w))
       = sentLocations w
    /\ sentLocations (snd (restoreBrightness snap env w)) = sentLocations w
    /\ sentLocations (snd (emergencyBrightnessRestore snap env w))
       = sentLocations w
    /\ sentLocations (snd (disableForFalseAlarm snap env w))
       = sentLocations w
    /\ sentLocations (initializeBrightnessState snap env w) = sentLocations w
    /\ sentLocations (intervalFires env w) = sentLocations w.
Proof.
  intros snap env w.
  unfold activateEmergencyDefense, deactivateEmergencyDefense,
    restoreBrightness, emergencyBrightnessRestore, disableForFalseAlarm,
    deactivateEmergencyDefense, initializeBrightnessState, intervalFires,
    checkFalseAlarmStatus.
  repeat split.
  - destruct (isInitialized snap), (initializationAttempted w),
      (falseAlarmDisabled snap), (platform env), (brightness_read_ok env),
      (brightness_write_ok env), (dom_ok env); cbn; split_Rltb;
      destruct (location env), (insert_ok env); cbn;
      rewrite ?app_nil_r; reflexivity.
  - intros Hl. rewrite Hl.
    destruct (isInitialized snap), (initializationAttempted w),
      (platform env), (brightness_read_ok env),
      (brightness_write_ok env), (dom_ok env); cbn; split_Rltb;
      destruct (location env), (insert_ok env); cbn; reflexivity.
  - destruct (platform env), (brightness_write_ok env), (dom_ok env);
      reflexivity.
  - destruct (platform env), (brightness_write_ok env), (dom_ok env);
      reflexivity.
  - destruct (platform env), (brightness_write_ok env), (dom_ok env),
      (isActive snap); reflexivity.
  - destruct (isActive snap), (platform env), (brightness_write_ok env),
      (dom_ok env); reflexivity.
  - destruct (initializationAttempted w), (isInitialized snap),
      (platform env), (brightness_read_ok env), (brightness_write_ok env),
      (dom_ok env); cbn; split_Rltb; reflexivity.
  - destruct (falseAlarmCheckInterval w) as [[until|]|]; cbn;
      try reflexivity.
    destruct (until <=? now env)%Z; reflexivity.
Qed.

Lemma ceil_minutes_spec ms :
  (60000 * (ceil_minutes ms - 1) < ms <= 60000 * ceil_minutes ms)%Z.
Proof.
  unfold ceil_minutes. change (1000 * 60)%Z with 60000%Z.
  pose proof (Z.div_mod (- ms) 60000 ltac:(lia)).
  pose proof (Z.mod_pos_bound (- ms) 60000 ltac:(lia)). lia.
Qed.

(** The remaining time of the false-alarm lock, as the status and
    [getRemainingFalseAlarmTime] report it, is the number of minutes to
    the expiry, rounded up and never negative: 30 at the moment the lock is
    engaged, 0 from the expiry on.  Once the lock has been engaged from a
    state without one, the status keeps reporting the lock as set after its
    interval has fired, also when the remaining time has reached 0. *)
Theorem remaining_time_is_clamped_while_the_lock_stays :
  forall (env : Env) (t : Z) (instants : list Z) (w : World),
    falseAlarmDisabledUntil (defenseState w) = None ->
    (now env <= t)%Z ->
    let locked := snd (fromLatestRender disableForFalseAlarm env w) in
    let later := intervalFiresAt env instants locked in
    let status := getDefenseStatus (defenseState later) (at_instant t env) in
    status_falseAlarmDisabled status = true
    /\ (0 <= falseAlarmTimeRemaining status <= 30)%Z
    /\ (falseAlarmTimeRemaining status = 0 <-> now env + 1800000 <= t)%Z
    /\ (t = now env -> falseAlarmTimeRemaining status = 30)%Z
    /\ getRemainingFalseAlarmTime (defenseState later) (at_instant t env)
       = falseAlarmTimeRemaining status.
Proof.
  intros env t instants w Hn Ht locked later status.
  destruct (lock_never_clears env instants w Hn) as [Hsame Hon].
  fold locked in Hsame, Hon.
  destruct (lock_engages env w) as (_ & _ & _ & _ & _ & Hu & _).
  fold locked in Hu. cbv zeta in Hu.
  unfold status, later, getDefenseStatus, getRemainingFalseAlarmTime.
  rewrite Hsame, Hu, Hon. cbn.
  pose proof (ceil_minutes_spec (now env + 1800000 - t)).
  repeat split; try lia.
Qed.

Lemma remaining_time_sample :
  falseAlarmTimeRemaining
    (getDefenseStatus
       (defenseState
          (intervalFiresAt (device 1000) (every_minute_from 1000 31)
             (snd (fromLatestRender disableForFalseAlarm (device 1000)
                     mounted))))
       (at_instant 1861000 (device 1000)))
  = 0%Z.
Proof.
  destruct (remaining_time_is_clamped_while_the_lock_stays
              (device 1000) 1861000 (every_minute_from 1000 31) mounted
              eq_refl ltac:(cbn; lia))
    as (_ & _ & H & _).
  apply H. cbn. lia.
Defined.

(** Engaging the lock a second time while the first is in force
    moves the expiry to thirty minutes after the second call, but the
    interval registered by that call checks the expiry of the first lock:
    its first firing at or after the first expiry lifts the lock, however
    much of the second thirty minutes is left; before the first expiry it
    lifts nothing. *)
Theorem second_lock_ends_at_the_first_expiry :
  forall (env1 env2 : Env) (t : Z) (w : World),
    let first := snd (fromLatestRender disableForFalseAlarm env1 w) in
    let second := snd (fromLatestRender disableForFalseAlarm env2 first) in
    let fired := intervalFiresAt env2 [t] second in
    falseAlarmDisabled (defenseState second) = true
    /\ falseAlarmDisabledUntil (defenseState second)
       = Some (now env2 + 1800000)%Z
    /\ ((now env1 + 1800000 <= t)%Z ->
        falseAlarmDisabled (defenseState fired) = false
        /\ falseAlarmDisabledUntil (defenseState fired) = None
        /\ falseAlarmCheckInterval fired = None)
    /\ ((t < now env1 + 1800000)%Z -> fired = second).
Proof.
  intros env1 env2 t w first second fired.
  destruct (lock_engages env1 w) as (_ & _ & _ & _ & _ & Hu1 & _).
  fold first in Hu1. cbv zeta in Hu1.
  destruct (lock_engages env2 first) as (_ & _ & _ & _ & Hon & Hu2 & _ & Hi).
  fold second in Hon, Hu2, Hi. cbv zeta in Hon, Hu2, Hi.
  rewrite Hu1 in Hi.
  split; [exact Hon|]. split; [exact Hu2|].
  unfold fired. cbn [intervalFiresAt]. unfold intervalFires.
  rewrite Hi. cbn [falseAlarmCheckInterval].
  split.
  - intros Ht.
    apply (check_lifts_expired_lock (now env1 + 1800000)). cbn. exact Ht.
  - intros Ht. unfold checkFalseAlarmStatus. cbn [now].
    destruct (Z.leb_spec (now env1 + 1800000) t); [lia | reflexivity].
Qed.

Lemma second_lock_sample :
  falseAlarmDisabled
    (defenseState
       (intervalFiresAt (device 1500000) [1801000%Z]
          (snd (fromLatestRender disableForFalseAlarm (device 1500000)
                  (snd (fromLatestRender disableForFalseAlarm (device 1000)
                          mounted))))))
  = false.
Proof.
  apply (second_lock_ends_at_the_first_expiry
           (device 1000) (device 1500000) 1801000 mounted).
  cbn. lia.
Defined.

(** The initialization at mount never lowers the screen: it raises
    a phone's brightness to 0.8 when it reads a level below 0.3 and leaves
    it alone otherwise.  It runs at most once per hook instance: once it
    has run, every later call is without effect, whichever render's closure
    makes it; and it leaves the defense flags, the lock and the dialogs as
    they were. *)
Theorem initialization_runs_once_and_never_dims :
  forall (snap : EmergencyDefenseState) (env : Env) (w : World),
    let w' := initializeBrightnessState snap env w in
    brightness w <= brightness w'
    /\ (brightness w' = brightness w
        \/ brightness w < 0.3 /\ brightness w' = 0.8)
    /\ (0.3 <= brightness w -> brightness w' = brightness w)
    /\ (initializationAttempted w = false -> isInitialized snap = false ->
        isInitialized (defenseState w') = true
        /\ forall snap' env', initializeBrightnessState snap' env' w' = w')
    /\ isActive (defenseState w') = isActive (defenseState w)
    /\ falseAlarmDisabled (defenseState w')
       = falseAlarmDisabled (defenseState w)
    /\ alerts w' = alerts w.
Proof.
  intros snap env w. unfold initializeBrightnessState.
  destruct (initializationAttempted w) eqn:Ha, (isInitialized snap) eqn:Hi;
    cbn; try (repeat split; solve [auto | lra | discriminate]).
  destruct (platform env), (brightness_read_ok env),
    (brightness_write_ok env), (dom_ok env); cbn;
    try destruct (Rltb (brightness w) 0.3) eqn:Hb; cbn;
    try apply Rltb_true_iff in Hb; try apply Rltb_false_iff in Hb;
    repeat split; solve [auto | lra].
Qed.

End DefenseMore.

(** ** The wording and the dispatch of the warnings *)

Module DispatchMore.
Import Geo Dispatch Scenario GeoProofs.

(** [Math.round x] is the integer [n] with [n <= x + 0.5 < n + 1]. *)
Lemma Math_round_spec x :
  IZR (Math_round x) <= x + 0.5 < IZR (Math_round x) + 1.
Proof.
  unfold Math_round. rewrite minus_IZR.
  destruct (archimed (x + 0.5)) as [H1 H2]. lra.
Qed.

Lemma Math_round_unique x n :
  IZR n <= x + 0.5 < IZR n + 1 -> Math_round x = n.
Proof.
  intros [H1 H2]. destruct (Math_round_spec x) as [H3 H4].
  assert (IZR (Math_round x) < IZR (n + 1)) by (rewrite plus_IZR; lra).
  assert (IZR n < IZR (Math_round x + 1)) by (rewrite plus_IZR; lra).
  apply lt_IZR in H, H0. lia.
Qed.

Lemma Math_round_le x n : IZR n <= x + 0.5 -> (n <= Math_round x)%Z.
Proof.
  intros H. destruct (Math_round_spec x) as [_ H4].
  assert (IZR n < IZR (Math_round x + 1)) by (rewrite plus_IZR; lra).
  apply lt_IZR in H0. lia.
Qed.

Lemma Math_round_lt x n : x + 0.5 < IZR n -> (Math_round x < n)%Z.
Proof.
  intros H. destruct (Math_round_spec x) as [H3 _].
  apply lt_IZR. lra.
Qed.

(** The wording of an arrival time.  Below a minute the text is the rounded
    number of seconds, always with [seconds]: one second reads [1 seconds],
    and from 59.5 s on the text is [60 seconds].  From a minute to an hour it
    is the rounded number of minutes, between 1 and 60, in the singular
    exactly below 90 s; from an hour on it is the rounded number of hours,
    in the singular exactly below 5400 s.  A user between 1 km and 1.75 km
    from the epicenter is told [0 seconds]. *)
Theorem arrival_time_wording :
  forall seconds : R,
    (0 <= seconds < 60 ->
     let n := Math_round seconds in
     formatArrivalTime seconds = (number_to_string n ++ " seconds")%string
     /\ (0 <= n <= 60)%Z
     /\ (n = 60%Z <-> 59.5 <= seconds)
     /\ (n = 1%Z <-> 0.5 <= seconds < 1.5))
    /\ (60 <= seconds < 3600 ->
        let n := Math_round (seconds / 60) in
        formatArrivalTime seconds
        = (number_to_string n
           ++ (if (n =? 1)%Z then " minute" else " minutes"))%string
        /\ (1 <= n <= 60)%Z
        /\ (n = 1%Z <-> seconds < 90))
    /\ (3600 <= seconds ->
        let n := Math_round (seconds / 3600) in
        formatArrivalTime seconds
        = (number_to_string n
           ++ (if (n =? 1)%Z then " hour" else " hours"))%string
        /\ (1 <= n)%Z
        /\ (n = 1%Z <-> seconds < 5400))
    /\ (1 <= seconds * 3.5 < 1.75 ->
        formatArrivalTime (calculateArrivalTime (seconds * 3.5) None)
        = "0 seconds"%string).
Proof.
  intros seconds. unfold formatArrivalTime.
  split; [|split; [|split]].
  - intros [H0 H60]. set (n := Math_round seconds).
    replace (Rltb seconds 60) with true by (symmetry; apply Rltb_true_iff; lra).
    pose proof (Math_round_spec seconds) as Hs. fold n in Hs.
    split; [reflexivity|].
    assert (Hlo : (0 <= n)%Z) by (apply Math_round_le; cbn; lra).
    assert (Hhi : (n < 61)%Z) by (apply Math_round_lt; lra).
    split; [lia|]. split; split.
    + intros Hn. rewrite Hn in Hs. lra.
    + intros H. apply Math_round_unique. lra.
    + intros Hn. rewrite Hn in Hs. lra.
    + intros H. apply Math_round_unique. lra.
  - intros [H0 H60]. set (n := Math_round (seconds / 60)).
    replace (Rltb seconds 60) with false
      by (symmetry; apply Rltb_false_iff; lra).
    replace (Rltb seconds 3600) with true
      by (symmetry; apply Rltb_true_iff; lra).
    pose proof (Math_round_spec (seconds / 60)) as Hs. fold n in Hs.
    split; [now destruct (n =? 1)%Z|].
    assert (Hlo : (1 <= n)%Z) by (apply Math_round_le; lra).
    assert (Hhi : (n < 61)%Z) by (apply Math_round_lt; lra).
    split; [lia|]. split.
    + intros Hn. rewrite Hn in Hs. lra.
    + intros H. apply Math_round_unique. lra.
  - intros H0. set (n := Math_round (seconds / 3600)).
    replace (Rltb seconds 60) with false
      by (symmetry; apply Rltb_false_iff; lra).
    replace (Rltb seconds 3600) with false
      by (symmetry; apply Rltb_false_iff; lra).
    pose proof (Math_round_spec (seconds / 3600)) as Hs. fold n in Hs.
    split; [now destruct (n =? 1)%Z|].
    assert (Hlo : (1 <= n)%Z) by (apply Math_round_le; lra).
    split; [lia|]. split.
    + intros Hn. rewrite Hn in Hs. lra.
    + intros H. apply Math_round_unique. lra.
  - intros H.
    unfold calculateArrivalTime, DEFAULT_WAVE_SPEED, S_WAVE.
    replace (seconds * 3.5 / 3.5) with seconds by (field; lra).
    replace (Rltb seconds 60) with true by (symmetry; apply Rltb_true_iff; lra).
    rewrite (Math_round_unique seconds 0) by lra. reflexivity.
Qed.

(** *** The dispatch *)




End DispatchMore.

(** ** The warnings received *)

Module WarningLogMore.
Import Geo Dispatch WarningLog Scenario.

Lemma intensity_description_not_empty x rest :
  String.eqb (getIntensityDescription x ++ rest) "" = false.
Proof.
  unfold getIntensityDescription.
  destruct (Rleb x 2), (Rleb x 4), (Rleb x 6), (Rleb x 8); reflexivity.
Qed.

Lemma title_is_kept (b : bool) fallback :
  or_text (if b then "🚨 URGENT EARTHQUAKE ALERT"%string
           else "⚠️ Earthquake Warning"%string) fallback
  = if b then "🚨 URGENT EARTHQUAKE ALERT"%string
    else "⚠️ Earthquake Warning"%string.
Proof. destruct b; reflexivity. Qed.

Lemma body_is_kept (b : bool) x urgent calm fallback :
  or_text (if b then (getIntensityDescription x ++ urgent)%string
           else (getIntensityDescription x ++ calm)%string) fallback
  = if b then (getIntensityDescription x ++ urgent)%string
    else (getIntensityDescription x ++ calm)%string.
Proof.
  unfold or_text. destruct b; now rewrite intensity_description_not_empty.
Qed.

(** From the dispatch to the log: the notification that
    [sendEarthquakeWarning] requests on a phone is accepted by the listener
    of [useEarthquakeWarning], whatever the warning and the report.  It
    becomes the last warning and the head of the recent ones, under the
    report's id, with the distance, arrival time and urgency of the warning
    and with the title and the body of the notification (the fallback
    texts are never used); the nine most recent of the earlier warnings
    follow it. *)
Theorem sent_warning_reaches_the_log :
  forall (ok : bool) (warning : WarningCalculation)
         (report : EarthquakeReport) (nw : Z) (s : State),
  exists notification,
    snd (sendEarthquakeWarning Native ok warning report) = [notification]
    /\ let s' := notificationReceived nw notification s in
       let received := {|
         id := Dispatch.id report;
         title := Dispatch.title notification;
         message := body notification;
         distance := distance_km warning;
         arrivalTime := arrival_time_seconds warning;
         isUrgent := is_urgent warning;
         timestamp := nw;
         epicenter := (report_latitude report, report_longitude report) |} in
       lastWarning s' = Some received
       /\ recentWarnings s' = received :: firstn 9 (recentWarnings s)
       /\ (Dispatch.title notification
           = "🚨 URGENT EARTHQUAKE ALERT"%string
           <-> is_urgent warning = true).
Proof.
  intros ok warning report nw s. eexists. split; [reflexivity|].
  unfold notificationReceived. cbn [data type Dispatch.title body].
  cbn [String.eqb Ascii.eqb Bool.eqb].
  cbn [earthquake_id data_distance_km data_arrival_time_seconds
       data_is_urgent Dispatch.epicenter].
  rewrite title_is_kept, body_is_kept. cbn [lastWarning recentWarnings].
  split; [reflexivity|]. split; [reflexivity|].
  destruct (is_urgent warning); split; intros H;
    try reflexivity; discriminate.
Qed.

(** The log of the hook, whatever notifications arrive and whatever is
    dismissed or cleared: it never holds more than ten warnings, the last
    warning, when there is one, is the first of the recent ones, and the
    statistics count at most ten warnings.  Dismissing an id removes every
    recent warning that bears it, and the last warning too when it bears
    it; as the id is that of the earthquake, all the warnings of one
    earthquake go together. *)
Theorem warning_log_keeps_the_last_ten :
  forall (actions : list Action),
    let s := fold_left (fun s a => act a s) actions initial in
    (List.length (recentWarnings s) <= 10)%nat
    /\ (forall w, lastWarning s = Some w ->
                  exists rest, recentWarnings s = w :: rest)
    /\ (urgentWarnings (getWarningStats s)
        <= totalWarnings (getWarningStats s) <= 10)%nat
    /\ (forall warningId,
          let s' := dismissWarning warningId s in
          Forall (fun w => id w <> warningId) (recentWarnings s')
          /\ (forall w, lastWarning s' = Some w -> id w <> warningId)
          /\ (forall w, In w (recentWarnings s) -> id w <> warningId ->
                        In w (recentWarnings s'))).
Proof.
  intros actions s.
  assert (Hinv : (List.length (recentWarnings s) <= 10)%nat
                 /\ (forall w, lastWarning s = Some w ->
                               exists rest, recentWarnings s = w :: rest)).
  { unfold s. clear s.
    assert (H0 : (List.length (recentWarnings initial) <= 10)%nat
                 /\ (forall w, lastWarning initial = Some w ->
                               exists rest, recentWarnings initial = w :: rest))
      by (split; [cbn; lia | discriminate]).
    revert H0. generalize initial as s.
    induction actions as [|a actions IH]; intros s Hs; [exact Hs|].
    cbn [fold_left]. apply IH. destruct Hs as [Hlen Hlast].
    destruct a as [nw n | warningId |]; cbn [act].
    - unfold notificationReceived.
      destruct (String.eqb (type (data n)) "earthquake_warning");
        [|split; assumption].
      cbn [recentWarnings lastWarning]. split.
      + cbn [List.length]. pose proof (firstn_le_length 9 (recentWarnings s)).
        lia.
      + intros w [= <-]. eexists. reflexivity.
    - unfold dismissWarning. cbn [recentWarnings lastWarning]. split.
      + pose proof (filter_length_le
                      (fun w => negb (String.eqb (id w) warningId))
                      (recentWarnings s)). lia.
      + intros w Hw. destruct (lastWarning s) as [l|]; [|discriminate].
        destruct (String.eqb (id l) warningId) eqn:E; [discriminate|].
        injection Hw as <-. destruct (Hlast l eq_refl) as [rest ->].
        cbn [filter]. rewrite E. cbn. eexists. reflexivity.
    - cbn. split; [lia | discriminate]. }
  destruct Hinv as [Hlen Hlast].
  split; [exact Hlen|]. split; [exact Hlast|]. split.
  - cbn [getWarningStats urgentWarnings totalWarnings]. split; [|exact Hlen].
    apply filter_length_le.
  - intros warningId s'. unfold s', dismissWarning.
    cbn [recentWarnings lastWarning]. repeat split.
    + apply Forall_forall. intros w Hw. apply filter_In in Hw.
      destruct Hw as [_ Hw]. apply negb_true_iff in Hw.
      now apply String.eqb_neq in Hw.
    + intros w Hw. destruct (lastWarning s) as [l|]; [|discriminate].
      destruct (String.eqb (id l) warningId) eqn:E; [discriminate|].
      injection Hw as <-. now apply String.eqb_neq in E.
    + intros w Hin Hne. apply filter_In. split; [assumption|].
      apply negb_true_iff. now apply String.eqb_neq.
Qed.

End WarningLogMore.

(** ** The sensor feed and the detector behind it *)

Module SensorsMore.
Import Detector Scenario DetectorProofs.

Lemma sqrt_le_bound x b : 0 <= b -> x <= b * b -> sqrt x <= b.
Proof.
  intros Hb Hx. rewrite <- (sqrt_square b Hb). now apply sqrt_le_1_alt.
Qed.

Lemma sqrt_ge_bound x a : 0 <= a -> a * a <= x -> a <= sqrt x.
Proof.
  intros Ha Hx. rewrite <- (sqrt_square a Ha). now apply sqrt_le_1_alt.
Qed.

(** The tick the detector runs on the samples of [sensors]. *)
Lemma detectorEffect_tick sensors detector nw sens loc act :
  Sensors.detectorEffect sensors detector nw sens loc act
  = detectEarthquake detector {|
      now := nw;
      accelMagnitude := calculateMagnitude (Sensors.accelerometerData sensors);
      gyroMagnitude := calculateMagnitude (Sensors.gyroscopeData sensors);
      sensitivity := sens; capturedLocation := loc;
      activateEmergencyDefense := act |}.
Proof. reflexivity. Qed.

Lemma magnitude_of_rest : calculateMagnitude {| x := 0; y := 0; z := 0 |} = 0.
Proof.
  unfold calculateMagnitude. cbn.
  replace (0 * 0 + 0 * 0 + 0 * 0) with 0 by ring. apply sqrt_0.
Qed.

Lemma mount_tick_intensity nw sens loc act :
  ci (Sensors.mount_tick nw sens loc act) = 9.81.
Proof.
  unfold ci, combinedIntensity, Sensors.mount_tick.
  cbn [accelMagnitude gyroMagnitude].
  cbn [Sensors.accelerometerData Sensors.gyroscopeData Sensors.initial].
  rewrite magnitude_of_rest. unfold Rabs. destruct Rcase_abs; lra.
Qed.

Lemma mount_tick_detects nw sens loc act :
  (10000 < nw)%Z -> 1.2 * sens < 9.81 ->
  detects initial (Sensors.mount_tick nw sens loc act) = true.
Proof.
  intros Hn Hs. apply detects_true_iff. rewrite mount_tick_intensity.
  unfold threshold.
  cbn [sensitivity Sensors.mount_tick now lastDetectionTime initial
       detectionBuffer].
  unfold push_capped, BUFFER_SIZE. cbn. unfold sum. cbn.
  repeat split; [lra | | lia].
  destruct (Rle_dec 0 sens); [lra | nra].
Qed.

(** At mount the detector runs before any reading has arrived, on the
    zeros that [useSensorData] starts with.  An accelerometer sample of
    magnitude 0 is 9.81 away from gravity, so this first tick has intensity
    9.81 and starts an event at every sensitivity below 8.175 (the default
    is 1); as 9.81 exceeds 2.5 it also calls the defense callback when the
    screen passes one.  The peak acceleration of that event starts at 0. *)
Theorem mount_tick_starts_an_event :
  forall (nw : Z) (sens : R) (loc : option Location) (act : option bool),
    (10000 < nw)%Z -> 1.2 * sens < 9.81 ->
    let out :=
      Sensors.detectorEffect Sensors.initial initial nw sens loc act in
    earthquakeIntensity (fst out) = 9.81
    /\ isInEvent (fst out) = true
    /\ eventStartTime (fst out) = nw
    /\ peakAcceleration (fst out) = 0
    /\ defenseActivationAttempted (fst out)
       = match act with Some _ => true | None => false end
    /\ snd out
       = [CaptureLocation]
         ++ match act with Some _ => [ActivateDefense] | None => [] end
         ++ [ScheduleDetectedReset].
Proof.
  intros nw sens loc act Hn Hs out. unfold out.
  rewrite detectorEffect_tick. fold (Sensors.mount_tick nw sens loc act).
  pose proof (mount_tick_detects nw sens loc act Hn Hs) as Hd.
  destruct (detect_start initial _ eq_refl Hd)
    as (Hi & Hst & _ & _ & Hp & _ & Ha & He).
  destruct (detect_common initial (Sensors.mount_tick nw sens loc act))
    as [Hci _].
  rewrite mount_tick_intensity in *.
  assert (Hb : Rltb EMERGENCY_DEFENSE_THRESHOLD 9.81 = true)
    by (apply Rltb_true_iff; unfold EMERGENCY_DEFENSE_THRESHOLD; lra).
  rewrite Hb in Ha, He.
  split; [exact Hci|]. split; [exact Hi|]. split; [exact Hst|].
  split.
  { rewrite Hp. cbn [accelMagnitude Sensors.mount_tick].
    apply magnitude_of_rest. }
  split.
  { rewrite Ha. cbn. now destruct act. }
  rewrite He. cbn [activateEmergencyDefense Sensors.mount_tick].
  now destruct act.
Qed.

Lemma mount_tick_sample :
  snd (Sensors.detectorEffect Sensors.initial initial 20000 1 None (Some true))
  = [CaptureLocation; ActivateDefense; ScheduleDetectedReset].
Proof.
  apply (mount_tick_starts_an_event 20000 1 None (Some true)); [lia | lra].
Defined.

(** The first accelerometer reading after mount, at a phone lying still
    (its distance from 9.81 not above the threshold), ends the event that
    the mount tick started.  When it arrives two seconds or more after the
    mount, an earthquake is recorded in the history and in the database:
    stamped with the mount, with peak acceleration 0 and with the mean of
    9.81 and the reading's intensity as its intensity.  When it arrives
    earlier nothing is recorded. *)
Theorem first_reading_records_the_mount_event :
  forall (data : SensorData) (nw0 nw1 : Z) (sens : R)
         (loc0 loc1 : option Location) (act : option bool),
    (10000 < nw0)%Z -> 1.2 * sens < 9.81 ->
    Rabs (calculateMagnitude data - 9.81) <= 1.2 * sens ->
    let mounted :=
      fst (Sensors.detectorEffect Sensors.initial initial nw0 sens loc0 act) in
    let sensors := Sensors.accelerometerListener data nw1 Sensors.initial in
    let out := Sensors.detectorEffect sensors mounted nw1 sens loc1 act in
    let e := {|
      timestamp := nw0;
      intensity := (9.81 + Rabs (calculateMagnitude data - 9.81)) / 2;
      duration := IZR (nw1 - nw0) / 1000;
      peak_acceleration := 0 |} in
    isInEvent (fst out) = false
    /\ snd out
       = if Rleb 2 (IZR (nw1 - nw0) / 1000)
         then [AddEarthquakeEvent e; SaveEarthquakeToDatabase e loc0]
         else [].
Proof.
  intros data nw0 nw1 sens loc0 loc1 act Hn Hs Hrest mounted sensors out e.
  pose proof (mount_tick_detects nw0 sens loc0 act Hn Hs) as Hd.
  assert (Hm : mounted = fst (detectEarthquake initial
                                (Sensors.mount_tick nw0 sens loc0 act)))
    by reflexivity.
  destruct (detect_start initial _ eq_refl Hd)
    as (Hi & Hst & _ & Hbuf & Hp & Hloc & Ha & _).
  rewrite <- Hm in Hi, Hst, Hbuf, Hp, Hloc, Ha.
  rewrite mount_tick_intensity in Hbuf, Ha.
  cbn [accelMagnitude Sensors.mount_tick Sensors.accelerometerData
       Sensors.initial] in Hp.
  rewrite magnitude_of_rest in Hp.
  cbn [capturedLocation activateEmergencyDefense Sensors.mount_tick
       currentEventLocation initial] in Hloc, Ha.
  assert (Hb : Rltb EMERGENCY_DEFENSE_THRESHOLD 9.81 = true)
    by (apply Rltb_true_iff; unfold EMERGENCY_DEFENSE_THRESHOLD; lra).
  rewrite Hb in Ha.
  unfold out. rewrite detectorEffect_tick.
  set (t1 := {| now := nw1;
                accelMagnitude :=
                  calculateMagnitude (Sensors.accelerometerData sensors);
                gyroMagnitude :=
                  calculateMagnitude (Sensors.gyroscopeData sensors);
                sensitivity := sens; capturedLocation := loc1;
                activateEmergencyDefense := act |}).
  assert (Hci : ci t1 = Rabs (calculateMagnitude data - 9.81)).
  { unfold ci, combinedIntensity, t1. cbn [accelMagnitude gyroMagnitude].
    unfold sensors.
    cbn [Sensors.accelerometerListener Sensors.accelerometerData
         Sensors.gyroscopeData Sensors.initial].
    rewrite magnitude_of_rest. lra. }
  assert (Hbelow : aboveThreshold t1 = false).
  { unfold aboveThreshold. apply Rltb_false_iff. rewrite Hci.
    unfold threshold. cbn [sensitivity t1]. lra. }
  destruct (detect_end mounted t1 Hi Hbelow) as ((Hidle & _) & _ & Heff).
  split; [exact Hidle|].
  rewrite Heff.
  assert (Hact : activates mounted t1 = false).
  { unfold activates. cbn [activateEmergencyDefense t1]. rewrite Ha.
    now destruct act. }
  rewrite Hact, Hst. cbn [app now t1].
  assert (He : finalized mounted t1 = e).
  { unfold finalized, e. rewrite Hbuf, Hst, Hp, Hci.
    cbn [now t1]. unfold push_capped, INTENSITY_BUFFER_SIZE. cbn.
    unfold sum. cbn. f_equal. lra. }
  rewrite He.
  assert (Hl : currentEventLocation mounted = loc0)
    by (rewrite Hloc; now destruct loc0).
  now rewrite Hl.
Qed.

Lemma first_reading_sample :
  snd (Sensors.detectorEffect
         (Sensors.accelerometerListener {| x := 0; y := 0; z := 9.81 |} 22000
            Sensors.initial)
         (fst (Sensors.detectorEffect Sensors.initial initial 20000 1 None
                 (Some true)))
         22000 1 None (Some true))
  = let e := {|
      timestamp := 20000;
      intensity :=
        (9.81 + Rabs (calculateMagnitude {| x := 0; y := 0; z := 9.81 |}
                      - 9.81)) / 2;
      duration := IZR (22000 - 20000) / 1000;
      peak_acceleration := 0 |} in
    [AddEarthquakeEvent e; SaveEarthquakeToDatabase e None].
Proof.
  assert (Hm : calculateMagnitude {| x := 0; y := 0; z := 9.81 |} = 9.81).
  { unfold calculateMagnitude. cbn.
    replace (0 * 0 + 0 * 0 + 9.81 * 9.81) with (9.81 * 9.81) by ring.
    apply sqrt_square. lra. }
  destruct (first_reading_records_the_mount_event
              {| x := 0; y := 0; z := 9.81 |} 20000 22000 1 None None
              (Some true))
    as [_ H]; [lia | lra | |].
  { rewrite Hm. unfold Rabs. destruct Rcase_abs; lra. }
  rewrite H.
  replace (Rleb 2 (IZR (22000 - 20000) / 1000)) with true; [reflexivity|].
  symmetry. apply Rleb_true_iff. cbn. lra.
Defined.

(** *** The browser simulation *)

Lemma simulated_accelerometer_bounds ra :
  0 <= ra < 1 ->
  Rabs (calculateMagnitude (Sensors.simulatedAccelerometerData ra) - 9.81)
  <= 0.102.
Proof.
  intros H. unfold calculateMagnitude, Sensors.simulatedAccelerometerData.
  cbn [x y z]. set (n := (ra - 0.5) * 0.2).
  assert (Hn : -0.1 <= n < 0.1) by (unfold n; lra).
  assert (Hlo : 9.71 <= sqrt (n * n + n * n + (9.81 + n) * (9.81 + n)))
    by (apply sqrt_ge_bound; nra).
  assert (Hhi : sqrt (n * n + n * n + (9.81 + n) * (9.81 + n)) <= 9.912)
    by (apply sqrt_le_bound; nra).
  unfold Rabs. destruct Rcase_abs; lra.
Qed.

Lemma simulated_gyroscope_bounds rg :
  0 <= rg < 1 ->
  0 <= calculateMagnitude (Sensors.simulatedGyroscopeData rg) <= 0.0867.
Proof.
  intros H. unfold calculateMagnitude, Sensors.simulatedGyroscopeData.
  cbn [x y z]. set (n := (rg - 0.5) * 0.1).
  assert (Hn : -0.05 <= n < 0.05) by (unfold n; lra).
  split; [apply sqrt_pos | apply sqrt_le_bound; nra].
Qed.

Lemma simulated_intensity t : Sensors.simulated t -> 0 <= ci t < 1.41.
Proof.
  intros (ra & rg & Ha & Hg & Eqa & Eqg).
  unfold ci, combinedIntensity. rewrite Eqa.
  pose proof (simulated_accelerometer_bounds ra Ha).
  pose proof (Rabs_pos (calculateMagnitude
                          (Sensors.simulatedAccelerometerData ra) - 9.81)).
  destruct Eqg as [-> | ->].
  - pose proof (simulated_gyroscope_bounds rg Hg). lra.
  - cbn [Sensors.gyroscopeData Sensors.initial]. rewrite magnitude_of_rest.
    lra.
Qed.

(** A tick whose intensity is not above 2.5 never calls the defense
    callback, in whichever phase it finds the detector. *)
Lemma weak_tick_never_activates s t :
  ci t <= 2.5 -> activations (snd (detectEarthquake s t)) = 0%nat.
Proof.
  intros Hw.
  assert (Hb : Rltb EMERGENCY_DEFENSE_THRESHOLD (ci t) = false)
    by (apply Rltb_false_iff; unfold EMERGENCY_DEFENSE_THRESHOLD; lra).
  assert (Ha : activates s t = false).
  { unfold activates. rewrite Hb.
    destruct (activateEmergencyDefense t); [apply andb_false_r | reflexivity]. }
  destruct (isInEvent s) eqn:Hi.
  - destruct (aboveThreshold t) eqn:Hab.
    + destruct (detect_continue s t Hi Hab) as (_ & _ & _ & _ & _ & ->).
      now rewrite Ha.
    + destruct (detect_end s t Hi Hab) as (_ & _ & ->).
      rewrite Ha. cbn [app]. now destruct (Rleb 2 _).
  - destruct (detects s t) eqn:Hd.
    + destruct (detect_start s t Hi Hd) as (_ & _ & _ & _ & _ & _ & _ & ->).
      rewrite Hb. now destruct (activateEmergencyDefense t).
    + now rewrite (detect_idle s t Hi Hd).
Qed.

(** In a browser the samples are made up: gravity plus a noise of at most
    0.1 on each axis of the accelerometer, a noise of at most 0.05 on each
    axis of the gyroscope.  Every tick on such samples has an intensity
    below 1.41.  So the defense callback is never called on them, in
    whichever state the run begins; and when the sensitivity is 1.175 or
    more throughout, a detector that is idle stays idle and calls
    nothing. *)
Theorem browser_simulation_stays_below_the_thresholds :
  forall (s : State) (ts : list Tick),
    Forall Sensors.simulated ts ->
    Forall (fun t => 0 <= ci t < 1.41) ts
    /\ activations (snd (run s ts)) = 0%nat
    /\ (isInEvent s = false ->
        Forall (fun t => 1.175 <= sensitivity t) ts ->
        isInEvent (fst (run s ts)) = false /\ snd (run s ts) = []).
Proof.
  intros s ts Hsim.
  assert (Hci : Forall (fun t => 0 <= ci t < 1.41) ts).
  { eapply Forall_impl; [|exact Hsim]. apply simulated_intensity. }
  split; [exact Hci|]. clear Hsim. split.
  - revert s. induction Hci as [|t ts Ht _ IH]; intros s; [reflexivity|].
    rewrite run_cons. cbn [snd]. rewrite activations_app, IH.
    rewrite weak_tick_never_activates by lra. reflexivity.
  - revert s. induction Hci as [|t ts Ht _ IH]; intros s Hi Hsens;
      [split; [exact Hi | reflexivity]|].
    inversion Hsens as [|? ? Hs1 Hs2]; subst.
    assert (Hd : detects s t = false).
    { destruct (detects s t) eqn:Hd; [|reflexivity].
      apply detects_true_iff in Hd. destruct Hd as (Hd & _).
      unfold threshold in Hd. lra. }
    rewrite run_cons, (detect_idle s t Hi Hd). cbn [fst snd app].
    apply IH; [exact Hi | exact Hs2].
Qed.

Lemma browser_simulation_sample :
  activations (snd (run initial [quiet_tick])) = 0%nat.
Proof.
  apply (browser_simulation_stays_below_the_thresholds initial [quiet_tick]).
  constructor; [|constructor].
  exists 0.5, 0.5. repeat split; try lra. now left.
Defined.

(** *** The waveform *)

Lemma pushWaveformPoint_lastn p prev :
  Sensors.pushWaveformPoint p prev = lastn 50 (prev ++ [p]).
Proof.
  unfold Sensors.pushWaveformPoint, Sensors.MAX_WAVEFORM_POINTS, lastn.
  cbv zeta. destruct (Nat.ltb_spec 50 (List.length (prev ++ [p]))).
  - reflexivity.
  - replace (List.length (prev ++ [p]) - 50)%nat with 0%nat by lia.
    reflexivity.
Qed.

Lemma listener_waveform rs : forall s pre,
  Sensors.waveformData s = lastn 50 pre ->
  Sensors.waveformData (fold_left (fun s r => Sensors.listener r s) rs s)
  = lastn 50 (pre ++ Sensors.points rs).
Proof.
  induction rs as [|r rs IH]; intros s pre Hs; cbn [fold_left].
  - cbn. now rewrite app_nil_r.
  - destruct r as [data nw | data].
    + change (Sensors.points (Sensors.AccelerometerReading data nw :: rs))
        with ([{| Sensors.value := Sensors.calculateMagnitude data;
                  Sensors.timestamp := nw |}] ++ Sensors.points rs).
      rewrite app_assoc. apply IH.
      cbn [Sensors.listener Sensors.accelerometerListener
           Sensors.waveformData].
      rewrite pushWaveformPoint_lastn, Hs.
      rewrite (lastn_app 50 (lastn 50 pre)), (lastn_app 50 pre).
      cbn [List.length]. now rewrite lastn_lastn by lia.
    + change (Sensors.points (Sensors.GyroscopeReading data :: rs))
        with (Sensors.points rs).
      apply IH. exact Hs.
Qed.

(** The waveform that the chart draws holds the last 50 accelerometer
    readings, oldest first, each with its magnitude and the instant it
    arrived; there are fewer only while fewer have arrived.  Gyroscope
    readings leave it alone. *)
Theorem waveform_holds_the_last_fifty_readings :
  forall rs : list Sensors.Reading,
    let s := fold_left (fun s r => Sensors.listener r s) rs Sensors.initial in
    Sensors.waveformData s = lastn 50 (Sensors.points rs)
    /\ List.length (Sensors.waveformData s)
       = Nat.min 50 (List.length (Sensors.points rs))
    /\ (forall data,
          Sensors.waveformData (Sensors.gyroscopeListener data s)
          = Sensors.waveformData s).
Proof.
  intros rs s.
  assert (H : Sensors.waveformData s = lastn 50 (Sensors.points rs))
    by apply (listener_waveform rs Sensors.initial [] eq_refl).
  split; [exact H|]. split; [|reflexivity].
  rewrite H. unfold lastn. rewrite length_skipn. lia.
Qed.

End SensorsMore.
